(** * PyLivestream: the stream plan builder of [PyLivestream/stream.py]

    A shallow embedding of [stream.py]: the two bitrate tables, the
    [Stream] object with its methods and the module-level [unify_streams],
    followed by the properties of the bitrate selector, the argument
    assemblers and the multi-stream reconciler.

    Python exceptions are values of [exn] carried by the [result] monad.
    Calls to [logging] leave the plan untouched and are left out. *)

From Stdlib Require Import ZArith QArith List String Ascii Bool Lia.
From Stdlib Require Import DecimalString Sorted.
Import ListNotations.

Local Open Scope Z_scope.
Local Open Scope string_scope.
Local Open Scope list_scope.

(** ** Exceptions and the error monad *)

Inductive exn : Type :=
| AssertionError
| ValueError
| IndexError
| TypeError
| UnboundLocalError
| AttributeError
| NoSectionError
| NoOptionError
| RuntimeError
| OverflowError
| HostError (msg : string).

Inductive result (A : Type) : Type :=
| Ok (a : A)
| Raise (e : exn).

Arguments Ok {A} a.
Arguments Raise {A} e.

Definition bind {A B : Type} (m : result A) (k : A -> result B) : result B :=
  match m with
  | Ok a => k a
  | Raise e => Raise e
  end.

Notation "x <- m ;; k" := (bind m (fun x => k))
  (at level 61, m at next level, right associativity).
Notation "' p <- m ;; k" := (bind m (fun x => let p := x in k))
  (at level 61, p pattern, m at next level, right associativity).

(** [assert c] *)
Definition py_assert (c : bool) : result unit :=
  if c then Ok tt else Raise AssertionError.

(** ** Python builtins used by the module *)

(** A value that is an [int] or a [str]: the entries of [self.res] are
    strings when they come from the configuration file and integers when
    they come from the probe. *)
Inductive PyVal : Type :=
| PyInt (z : Z)
| PyStr (s : string).

(** A number that is an [int] or a finite [float], the float given by the
    rational it denotes (NaN and the infinities are not represented). *)
Inductive PyNum : Type :=
| NInt (z : Z)
| NFloat (q : Q).

Definition num_to_Q (n : PyNum) : Q :=
  match n with
  | NInt z => inject_Z z
  | NFloat q => q
  end.

(** [n <= 30] *)
Definition num_le_30 (n : PyNum) : bool := Qle_bool (num_to_Q n) (inject_Z 30).

(** [str(z)] for an [int] *)
Definition str_int (z : Z) : string := NilZero.string_of_int (Z.to_int z).

(** [a[i]] on a list *)
Definition getitem {A : Type} (a : list A) (i : nat) : result A :=
  match nth_error a i with
  | Some v => Ok v
  | None => Raise IndexError
  end.

(** Whitespace as [str.strip] sees it (ASCII range): tab to carriage
    return, the four separators 0x1C to 0x1F, and the blank. *)
Definition is_space (c : ascii) : bool :=
  let n := nat_of_ascii c in
  ((9 <=? n) && (n <=? 13) || (28 <=? n) && (n <=? 32))%nat.

Fixpoint lstrip (l : list ascii) : list ascii :=
  match l with
  | c :: l' => if is_space c then lstrip l' else l
  | [] => []
  end.

Definition strip_chars (l : list ascii) : list ascii :=
  rev (lstrip (rev (lstrip l))).

(** [s.strip()] *)
Definition str_strip (s : string) : string :=
  string_of_list_ascii (strip_chars (list_ascii_of_string s)).

(** Whitespace as [int] sees it on ASCII text: tab to carriage return and
    the blank, the separators 0x1C to 0x1F not among them. *)
Definition is_int_space (c : ascii) : bool :=
  let n := nat_of_ascii c in
  ((9 <=? n) && (n <=? 13) || (n =? 32))%nat.

Fixpoint int_lstrip (l : list ascii) : list ascii :=
  match l with
  | c :: l' => if is_int_space c then int_lstrip l' else l
  | [] => []
  end.

Definition int_strip_chars (l : list ascii) : list ascii :=
  rev (int_lstrip (rev (int_lstrip l))).

Definition digit_of (c : ascii) : option Z :=
  let n := nat_of_ascii c in
  if ((48 <=? n) && (n <=? 57))%nat then Some (Z.of_nat n - 48) else None.

(** Decimal digits, a single underscore allowed between two digits. *)
Fixpoint digits (acc : Z) (after_digit : bool) (l : list ascii) : option Z :=
  match l with
  | [] => if after_digit then Some acc else None
  | c :: l' =>
      if Ascii.eqb c "_"%char then
        if after_digit then digits acc false l' else None
      else
        match digit_of c with
        | Some d => digits (10 * acc + d) true l'
        | None => None
        end
  end.

Definition signed_digits (l : list ascii) : option Z :=
  match l with
  | c :: l' =>
      if Ascii.eqb c "-"%char then option_map Z.opp (digits 0 false l')
      else if Ascii.eqb c "+"%char then digits 0 false l'
      else digits 0 false l
  | [] => None
  end.

(** [int(s)] for a [str] (ASCII text, base 10) *)
Definition int_of_str (s : string) : result Z :=
  match signed_digits (int_strip_chars (list_ascii_of_string s)) with
  | Some z => Ok z
  | None => Raise ValueError
  end.

(** [int(v)] *)
Definition py_int (v : PyVal) : result Z :=
  match v with
  | PyInt z => Ok z
  | PyStr s => int_of_str s
  end.

(** [str(v)] *)
Definition py_str (v : PyVal) : string :=
  match v with
  | PyInt z => str_int z
  | PyStr s => s
  end.

(** [s.split(sep)] for a one-character separator *)
Fixpoint split_chars (sep : ascii) (cur : list ascii) (l : list ascii)
  : list string :=
  match l with
  | [] => [string_of_list_ascii (rev cur)]
  | c :: l' =>
      if Ascii.eqb c sep
      then string_of_list_ascii (rev cur) :: split_chars sep [] l'
      else split_chars sep (c :: cur) l'
  end.

Definition str_split (sep : ascii) (s : string) : list string :=
  split_chars sep [] (list_ascii_of_string s).

(** [sep.join(l)] *)
Fixpoint str_join (sep : string) (l : list string) : string :=
  match l with
  | [] => ""
  | [s] => s
  | s :: l' => s ++ sep ++ str_join sep l'
  end.

(** Truth value of an [Optional[int]] and of an [Optional[str]]. *)
Definition truthy_int (o : option Z) : bool :=
  match o with
  | Some z => negb (z =? 0)%Z
  | None => false
  end.

Definition truthy_str (o : option string) : bool :=
  match o with
  | Some s => negb (s =? "")%string
  | None => false
  end.

(** ** The bitrate tables *)

(** Col0: vertical pixels (height). Col1: video kbps. *)
Definition BR30 : list (Z * Z) :=
  [ (240, 300);
    (360, 400);
    (480, 500);
    (540, 800);
    (720, 1800);
    (1080, 3000);
    (1440, 6000);
    (2160, 13000) ].

Definition BR60 : list (Z * Z) :=
  [ (720, 2250);
    (1080, 4500);
    (1440, 9000);
    (2160, 20000) ].

(** [list(d.keys())] and [list(d.values())] of an [OrderedDict] *)
Definition keys (d : list (Z * Z)) : list Z := map fst d.
Definition values (d : list (Z * Z)) : list Z := map snd d.

(** [bisect.bisect_left(a, x)]:
<<
    lo, hi = 0, len(a)
    while lo < hi:
        mid = (lo + hi) // 2
        if a[mid] < x: lo = mid + 1
        else: hi = mid
    return lo
>>
    The loop runs on [fuel]; [bisect_left] gives it [len(a)] rounds, which
    [bisect_loop_fuel] shows to be enough. *)
Fixpoint bisect_loop (fuel : nat) (a : list Z) (x : Z) (lo hi : nat)
  : result nat :=
  match fuel with
  | O => Ok lo
  | S fuel' =>
      if (lo <? hi)%nat then
        let mid := ((lo + hi) / 2)%nat in
        am <- getitem a mid ;;
        if (am <? x)%Z
        then bisect_loop fuel' a x (mid + 1)%nat hi
        else bisect_loop fuel' a x lo mid
      else Ok lo
  end.

Definition bisect_left (a : list Z) (x : Z) : result nat :=
  bisect_loop (List.length a) a x 0%nat (List.length a).

(** ** The configuration file and the host *)

(** A parsed [ConfigParser]: sections in file order, each with its options.
    Option values are taken after interpolation. *)
Definition Options : Type := list (string * string).
Definition ConfigParser : Type := list (string * Options).

Fixpoint assoc {V : Type} (k : string) (l : list (string * V)) : option V :=
  match l with
  | [] => None
  | (k', v) :: l' => if (k =? k')%string then Some v else assoc k l'
  end.

(** [section in C]: the default section is always there. *)
Definition cfg_contains (C : ConfigParser) (section : string) : bool :=
  (section =? "DEFAULT")%string ||
  match assoc section C with
  | Some _ => true
  | None => false
  end.

Definition section_options (C : ConfigParser) (section : string) : Options :=
  match assoc section C with
  | Some o => o
  | None => []
  end.

(** [C.get(section, option)]: the section's own value, else the default
    section's. *)
Definition cfg_get (C : ConfigParser) (section opt : string)
  : result string :=
  if cfg_contains C section then
    match assoc opt (section_options C section) with
    | Some v => Ok v
    | None =>
        match assoc opt (section_options C "DEFAULT") with
        | Some v => Ok v
        | None => Raise NoOptionError
        end
    end
  else Raise NoSectionError.

(** [C.get(section, option, fallback=None)] *)
Definition cfg_get_fallback (C : ConfigParser) (section opt : string)
  : option string :=
  match cfg_get C section opt with
  | Ok v => Some v
  | Raise _ => None
  end.

(** [C.getint(section, option)] *)
Definition cfg_getint (C : ConfigParser) (section opt : string)
  : result Z :=
  v <- cfg_get C section opt ;;
  int_of_str v.

(** [C.getint(section, option, fallback=None)]: only a missing section or
    option falls back, a malformed number still raises. *)
Definition cfg_getint_fallback (C : ConfigParser) (section opt : string)
  : result (option Z) :=
  match cfg_get C section opt with
  | Ok v => z <- int_of_str v ;; Ok (Some z)
  | Raise _ => Ok None
  end.

Definition Path : Type := string.

(** What the module asks of its host: the file system, [sys.platform], the
    helpers of [sio], and float arithmetic and printing.
    [expanduser p] is [Path(p).expanduser()], which raises [RuntimeError]
    when the home directory of a leading [~] or [~user] cannot be found.
    [float_str f] is [str(f)] and [float_mul_str k f] is [str(k * f)] for
    an [int] [k] and a float [f]: the product raises [OverflowError] when
    [k] is too large to convert to a float. *)
Record World : Type := {
  is_file : Path -> bool;
  read_config : Path -> ConfigParser;
  read_text : Path -> result string;
  expanduser : Path -> result Path;
  platform : string;
  getexe : string -> result (string * string);
  get_resolution : option Path -> string -> result (option (list PyVal));
  get_framerate : option Path -> string -> result (option PyNum);
  float_str : Q -> string;
  float_mul_str : Z -> Q -> result string
}.

(** ** The [Stream] class *)

(** The attributes set by [__init__]. *)
Record StreamInit : Type := {
  ini : Path;
  site : string;
  vidsource : string;
  image : option Path;
  loop : bool;
  infn : option Path
}.

(** [Stream.__init__] *)
Definition Stream_init (w : World) (ini : Path) (site vidsource : string)
  (image : option Path) (loop : bool) (infn : option Path)
  : result StreamInit :=
  ini <- expanduser w ini ;;
  Ok {| ini := ini;
        site := site;
        vidsource := vidsource;
        image := image;
        loop := loop;
        infn := infn |}.

(** The object once [osparam] has run. [origin] is [None] while the
    attribute does not exist (only a screen source sets it). *)
Record Stream : Type := {
  init : StreamInit;
  exe : string;
  probeexe : string;
  res : option (list PyVal);
  fps : option PyNum;
  origin : option (list string);
  audiofs : string;
  preset : string;
  timelimit : option string;
  videochan : string;
  audiochan : option string;
  vcap : string;
  acap : option string;
  hcam : string;
  video_kbps : option Z;
  audio_bps : option string;
  keyframe_sec : Z;
  server : option string;
  key : option string
}.

(** [self.video_kbps = v] *)
Definition set_video_kbps (s : Stream) (v : option Z) : Stream :=
  {| init := init s;
     exe := exe s;
     probeexe := probeexe s;
     res := res s;
     fps := fps s;
     origin := origin s;
     audiofs := audiofs s;
     preset := preset s;
     timelimit := timelimit s;
     videochan := videochan s;
     audiochan := audiochan s;
     vcap := vcap s;
     acap := acap s;
     hcam := hcam s;
     video_kbps := v;
     audio_bps := audio_bps s;
     keyframe_sec := keyframe_sec s;
     server := server s;
     key := key s |}.

(** The source-specific part of [osparam]: [res], [fps] and [origin]. *)
Definition osparam_source (w : World) (C : ConfigParser) (a : StreamInit)
  (probeexe : string)
  : result (option (list PyVal) * option PyNum * option (list string)) :=
  if (vidsource a =? "camera")%string then
    r <- cfg_get C (site a) "webcam_res" ;;
    f <- cfg_getint C (site a) "webcam_fps" ;;
    Ok (Some (map PyStr (str_split "x" r)), Some (NInt f), None)
  else if (vidsource a =? "screen")%string then
    r <- cfg_get C (site a) "screencap_res" ;;
    f <- cfg_getint C (site a) "screencap_fps" ;;
    o <- cfg_get C (site a) "screencap_origin" ;;
    Ok (Some (map PyStr (str_split "x" r)), Some (NInt f),
        Some (str_split "," o))
  else if (vidsource a =? "file")%string then
    r <- get_resolution w (infn a) probeexe ;;
    f <- get_framerate w (infn a) probeexe ;;
    Ok (r, f, None)
  else Raise ValueError.

(** The stream key: absent, the stripped text of the key file, or the
    configured value itself. *)
Definition osparam_key (w : World) (C : ConfigParser) (a : StreamInit)
  : result (option string) :=
  let keyfn := cfg_get_fallback C (site a) "key" in
  if negb (truthy_str keyfn) then Ok None
  else
    match keyfn with
    | None => Ok None
    | Some fn =>
        key <- expanduser w fn ;;
        if is_file w key
        then t <- read_text w key ;; Ok (Some (str_strip t))
        else Ok (Some fn)
    end.

(** [C.get(sys.platform, 'exe', fallback='ffmpeg')] *)
Definition configured_exe (w : World) (C : ConfigParser) : string :=
  match cfg_get_fallback C (platform w) "exe" with
  | Some e => e
  | None => "ffmpeg"
  end.

(** [Stream.osparam]: load OS specific config. The Wayland check only
    logs. A run that raises returns no plan; the attributes it had assigned
    by then ([exe] and [probeexe] at the source dispatch) are not part of
    any result. *)
Definition osparam (w : World) (a : StreamInit) : result Stream :=
  _ <- py_assert (is_file w (ini a)) ;;
  let C := read_config w (ini a) in
  _ <- py_assert (cfg_contains C (site a)) ;;
  ' (exe, probeexe) <- getexe w (configured_exe w C) ;;
  ' (res, fps, origin) <- osparam_source w C a probeexe ;;
  audiofs <- cfg_get C (site a) "audiofs" ;;
  preset <- cfg_get C (site a) "preset" ;;
  let timelimit := cfg_get_fallback C (site a) "timelimit" in
  videochan <- cfg_get C (platform w) "videochan" ;;
  let audiochan := cfg_get_fallback C (platform w) "audiochan" in
  vcap <- cfg_get C (platform w) "vcap" ;;
  let acap := cfg_get_fallback C (platform w) "acap" in
  hcam <- cfg_get C (platform w) "hcam" ;;
  video_kbps <- cfg_getint_fallback C (site a) "video_kbps" ;;
  audio_bps <- cfg_get C (site a) "audio_bps" ;;
  keyframe_sec <- cfg_getint C (site a) "keyframe_sec" ;;
  let server := cfg_get_fallback C (site a) "server" in
  key <- osparam_key w C a ;;
  Ok {| init := a;
        exe := exe;
        probeexe := probeexe;
        res := res;
        fps := fps;
        origin := origin;
        audiofs := audiofs;
        preset := preset;
        timelimit := timelimit;
        videochan := videochan;
        audiochan := audiochan;
        vcap := vcap;
        acap := acap;
        hcam := hcam;
        video_kbps := video_kbps;
        audio_bps := Some audio_bps;
        keyframe_sec := keyframe_sec;
        server := server;
        key := key |}.

(** A [Path] object is always true; only [None] is false. *)
Definition truthy_path (o : option Path) : bool :=
  match o with
  | Some _ => true
  | None => false
  end.

(** [str(n)] for a number, and for an attribute that may be [None]. *)
Definition str_num (w : World) (n : PyNum) : string :=
  match n with
  | NInt z => str_int z
  | NFloat q => float_str w q
  end.

Definition str_opt_num (w : World) (o : option PyNum) : string :=
  match o with
  | Some n => str_num w n
  | None => "None"
  end.

Definition str_opt_int (o : option Z) : string :=
  match o with
  | Some z => str_int z
  | None => "None"
  end.

Definition str_opt_str (o : option string) : string :=
  match o with
  | Some s => s
  | None => "None"
  end.

(** [str(k * n)] for an [int] [k] *)
Definition str_int_mul_num (w : World) (k : Z) (n : PyNum) : result string :=
  match n with
  | NInt z => Ok (str_int (k * z))
  | NFloat q => float_mul_str w k q
  end.

(** [k * v] for an [int] [k] and an attribute that may be [None] *)
Definition int_mul_opt (k : Z) (o : option Z) : result Z :=
  match o with
  | Some z => Ok (k * z)
  | None => Raise TypeError
  end.

(** [Stream.screengrab]: choose to grab video from desktop. *)
Definition screengrab (w : World) (s : Stream) : result (list string) :=
  let vid1 := ["-f"; vcap s; "-r"; str_opt_num w (fps s)] in
  let vid1 :=
    match res s with
    | Some r => vid1 ++ ["-s"; str_join "x" (map py_str r)]
    | None => vid1
    end in
  if (platform w =? "linux")%string then
    match origin s with
    | None => Raise AttributeError
    | Some o =>
        o0 <- getitem o 0 ;;
        o1 <- getitem o 1 ;;
        Ok (vid1 ++ ["-i"; (":0.0+" ++ o0 ++ "," ++ o1)%string])
    end
  else if (platform w =? "win32")%string then
    match origin s with
    | None => Raise AttributeError
    | Some o =>
        o0 <- getitem o 0 ;;
        o1 <- getitem o 1 ;;
        Ok (vid1 ++ ["-offset_x"; o0; "-offset_y"; o1; "-i"; videochan s])
    end
  else if (platform w =? "darwin")%string then
    Ok (vid1 ++ ["-i"; "0:0"])
  else Ok vid1.

(** [Stream.webcam]: configure webcam. *)
Definition webcam (w : World) (s : Stream) : list string :=
  ["-f"; hcam s; "-r"; str_opt_num w (fps s); "-i"; videochan s].

(** [Stream.filein]: stream input file (video, or audio + image). *)
Definition filein (w : World) (s : Stream) : result (list string) :=
  match infn (init s) with
  | None => Raise AssertionError
  | Some p =>
      fn <- expanduser w p ;;
      let vid1 :=
        if truthy_path (image (init s)) then ["-loop"; "1"] else ["-re"] in
      let vid1 :=
        if loop (init s) then vid1 ++ ["-stream_loop"; "-1"] else vid1 ++ [] in
      let vid1 :=
        match image (init s) with
        | Some img => vid1 ++ ["-i"; img]
        | None => vid1
        end in
      Ok (vid1 ++ ["-i"; fn])
  end.

(** [Stream.videostream]: the input and the output flags. *)
Definition videostream (w : World) (s : Stream)
  : result (list string * list string) :=
  vid1 <-
    (if (vidsource (init s) =? "screen")%string then screengrab w s
     else if (vidsource (init s) =? "camera")%string then Ok (webcam w s)
     else if (vidsource (init s) =? "file")%string then filein w s
     else Raise ValueError) ;;
  let vid2 := ["-c:v"; "libx264"; "-pix_fmt"; "yuv420p"] in
  if truthy_path (image (init s)) then
    Ok (vid1, vid2 ++ ["-tune"; "stillimage"])
  else
    let fps :=
      match fps s with
      | Some f => f
      | None => NFloat (inject_Z 30)
      end in
    g <- str_int_mul_num w (keyframe_sec s) fps ;;
    Ok (vid1,
        vid2 ++ ["-preset"; preset s;
                 "-b:v"; (str_opt_int (video_kbps s) ++ "k")%string;
                 "-g"; g]).

(** The guard shared by [audiostream] and [audiocomp]:
    [not self.audio_bps or not self.acap or not self.audiochan]. *)
Definition no_audio (s : Stream) : bool :=
  negb (truthy_str (audio_bps s)) || negb (truthy_str (acap s))
  || negb (truthy_str (audiochan s)).

(** [Stream.audiostream]. Past the guard [acap] and [audiochan] are
    strings, and [str_opt_str] is the string itself. *)
Definition audiostream (s : Stream) : list string :=
  if no_audio s then []
  else if negb (vidsource (init s) =? "file")%string then
    ["-f"; str_opt_str (acap s); "-i"; str_opt_str (audiochan s)]
  else [].

(** [Stream.audiocomp]: select audio codec. *)
Definition audiocomp (s : Stream) : list string :=
  if no_audio s then []
  else ["-c:a"; "aac"; "-b:a"; str_opt_str (audio_bps s); "-ar"; audiofs s].

(** The height [x] that [video_bitrate] looks up; [Ok None] when neither
    branch binds [x]. *)
Definition bitrate_height (s : Stream) : result (option Z) :=
  match res s with
  | Some r =>
      v <- getitem r 1 ;;
      x <- py_int v ;;
      Ok (Some x)
  | None =>
      if (vidsource (init s) =? "file")%string then Ok (Some 720)
      else Ok None
  end.

(** [list(BR.values())[bisect.bisect_left(list(BR.keys()), x)]] *)
Definition table_lookup (BR : list (Z * Z)) (x : Z) : result Z :=
  i <- bisect_left (keys BR) x ;;
  getitem (values BR) i.

(** [self.fps is None or self.fps <= 30] *)
Definition low_fps (s : Stream) : bool :=
  match fps s with
  | None => true
  | Some f => num_le_30 f
  end.

(** [Stream.video_bitrate]: get "best" video bitrate. *)
Definition video_bitrate (s : Stream) : result Stream :=
  if truthy_int (video_kbps s) then Ok s
  else
    x <- bitrate_height s ;;
    let BR := if low_fps s then BR30 else BR60 in
    match x with
    | None => Raise UnboundLocalError
    | Some x =>
        v <- table_lookup BR x ;;
        Ok (set_video_kbps s (Some v))
    end.

(** [Stream.buffer]: configure network buffer. *)
Definition buffer (s : Stream) (server : string) : result (list string) :=
  let buf := ["-threads"; "0"] in
  buf <-
    (if negb (truthy_path (image (init s))) then
       twice <- int_mul_opt 2 (video_kbps s) ;;
       Ok (buf ++ ["-maxrate"; (str_opt_int (video_kbps s) ++ "k")%string;
                   "-bufsize"; (str_int twice ++ "k")%string])
     else Ok (buf ++ ["-shortest"])) ;;
  if (server =? "-")%string
  then Ok (buf ++ ["-f"; "null"])
  else Ok (buf ++ ["-f"; "flv"]).

(** ** [unify_streams] *)

(** [a < b] on two bitrates; [None] does not compare. *)
Definition py_lt (a b : option Z) : result bool :=
  match a, b with
  | Some x, Some y => Ok (x <? y)%Z
  | _, _ => Raise TypeError
  end.

(** The loop of [min(iterable, key=...)]: the running minimum is replaced
    only by a strictly smaller key. *)
Fixpoint min_loop (key : nat -> result (option Z)) (minitem : nat)
  (minval : option Z) (items : list nat) : result nat :=
  match items with
  | [] => Ok minitem
  | item :: rest =>
      val <- key item ;;
      c <- py_lt val minval ;;
      if c
      then min_loop key item val rest
      else min_loop key minitem minval rest
  end.

Definition py_min (key : nat -> result (option Z)) (items : list nat)
  : result nat :=
  match items with
  | [] => Raise ValueError
  | item :: rest =>
      val <- key item ;;
      min_loop key item val rest
  end.

(** [unify_streams(self, streams)]: the index of the stream with the lowest
    video bitrate. *)
Definition unify_streams {A : Type} (self : A) (streams : list Stream)
  : result (option nat) :=
  match streams with
  | [] => Ok None
  | _ :: _ =>
      let vid_bw := map video_kbps streams in
      i <- py_min (getitem vid_bw) (seq 0 (List.length vid_bw)) ;;
      Ok (Some i)
  end.

(** ** Notions of the specification *)

(** "First entry whose resolution is at least the requested height". *)
Definition first_ge (BR : list (Z * Z)) (x : Z) : option Z :=
  option_map snd (find (fun kv => (x <=? fst kv)%Z) BR).

(** The table [video_bitrate] reads for a plan. *)
Definition selected_table (s : Stream) : list (Z * Z) :=
  if low_fps s then BR30 else BR60.

(** A field is set when it holds a non-empty string; [None] and the empty
    string both count as unset, as Python's truth value has it. *)
Definition is_set (o : option string) : Prop :=
  exists v, o = Some v /\ v <> "".

(** ** A sample host and sample plans

  A configuration file in the layout the module reads, a Linux host, and
  the plans [osparam] builds from them. *)
Module Sample.

Definition config : ConfigParser :=
  [ ("DEFAULT",
      [ ("preset", "veryfast");
        ("audio_bps", "128k");
        ("audiofs", "44100");
        ("keyframe_sec", "2");
        ("webcam_res", "1280x720");
        ("webcam_fps", "30");
        ("screencap_res", "1920x1080");
        ("screencap_fps", "60");
        ("screencap_origin", "100,200") ]);
    ("linux",
      [ ("exe", "ffmpeg");
        ("vcap", "x11grab");
        ("acap", "pulse");
        ("hcam", "v4l2");
        ("videochan", "/dev/video0");
        ("audiochan", "default") ]);
    ("youtube",
      [ ("server", "rtmp://a.rtmp.youtube.com/live2/");
        ("key", "abcd-1234") ]);
    ("sd",
      [ ("webcam_res", "960x500") ]);
    ("oversize",
      [ ("webcam_res", "3842x2161");
        ("screencap_res", "4000x3000") ]);
    ("fixed",
      [ ("video_kbps", "2500") ]);
    ("zero",
      [ ("video_kbps", "0") ]) ].

Definition world : World :=
  {| is_file := fun p => (p =? "pylivestream.ini")%string;
     read_config := fun _ => config;
     read_text := fun _ => Raise (HostError "unreadable");
     expanduser := fun p =>
       if String.prefix "~nosuchuser" p then Raise RuntimeError else Ok p;
     platform := "linux";
     getexe := fun e => Ok (e, "ffprobe");
     get_resolution := fun _ _ => Ok (Some [PyInt 1920; PyInt 1080]);
     get_framerate := fun _ _ => Ok (Some (NFloat (24 # 1)));
     float_str := fun q => (str_int (Qnum q / Zpos (Qden q)) ++ ".0")%string;
     float_mul_str := fun k q =>
       if (2 ^ 1024 - 2 ^ 970 <=? Z.abs k)%Z then Raise OverflowError
       else
         let p := Qred (inject_Z k * q) in
         Ok (str_int (Qnum p / Zpos (Qden p)) ++ ".0")%string |}.

Definition plan (site vidsource : string) (image : option Path)
  (loop : bool) (infn : option Path) : result Stream :=
  a <- Stream_init world "pylivestream.ini" site vidsource image loop infn ;;
  osparam world a.

(** The plan itself, or an empty plan where [osparam] raised. *)
Definition blank : Stream :=
  {| init := {| ini := ""; site := ""; vidsource := ""; image := None;
                loop := false; infn := None |};
     exe := ""; probeexe := ""; res := None; fps := None; origin := None;
     audiofs := ""; preset := ""; timelimit := None; videochan := "";
     audiochan := None; vcap := ""; acap := None; hcam := "";
     video_kbps := None; audio_bps := None; keyframe_sec := 0;
     server := None; key := None |}.

Definition built (r : result Stream) : Stream :=
  match r with
  | Ok s => s
  | Raise _ => blank
  end.

Definition camera : Stream :=
  Eval vm_compute in built (plan "youtube" "camera" None false None).
Definition screen : Stream :=
  Eval vm_compute in built (plan "youtube" "screen" None false None).
Definition file : Stream :=
  Eval vm_compute in
    built (plan "youtube" "file" None true (Some "talk.mp4")).
Definition still : Stream :=
  Eval vm_compute in
    built (plan "youtube" "file" (Some "cover.png") false (Some "talk.mp3")).
Definition file_nohome : Stream :=
  Eval vm_compute in
    built (plan "youtube" "file" None true (Some "~nosuchuser/talk.mp4")).
Definition camera_sd : Stream :=
  Eval vm_compute in built (plan "sd" "camera" None false None).
Definition camera_oversize : Stream :=
  Eval vm_compute in built (plan "oversize" "camera" None false None).
Definition screen_oversize : Stream :=
  Eval vm_compute in built (plan "oversize" "screen" None false None).
Definition camera_fixed : Stream :=
  Eval vm_compute in built (plan "fixed" "camera" None false None).
Definition camera_zero : Stream :=
  Eval vm_compute in built (plan "zero" "camera" None false None).

End Sample.

(** ** Further hosts

    The sample configuration with sections for more platforms and a site
    whose capture origin has no comma, hosts on those platforms, and a
    host whose probe finds neither resolution nor frame rate. *)
Module Variant.

Definition devices (vcap hcam videochan : string) : Options :=
  [ ("vcap", vcap); ("hcam", hcam); ("videochan", videochan);
    ("acap", ""); ("audiochan", "default") ].

Definition config : ConfigParser :=
  Sample.config ++
  [ ("win32", devices "gdigrab" "dshow" "desktop");
    ("darwin", devices "avfoundation" "avfoundation" "default");
    ("freebsd", devices "x11grab" "v4l2" "/dev/video0");
    ("corner", [ ("screencap_origin", "0") ]);
    ("tiny", [ ("webcam_res", "320x240"); ("screencap_res", "640x480") ]);
    ("square", [ ("webcam_res", "720") ]);
    ("keyfile", [ ("key", "stream.key") ]) ].

Definition on (platform : string) : World :=
  {| is_file := is_file Sample.world;
     read_config := fun _ => config;
     read_text := read_text Sample.world;
     expanduser := expanduser Sample.world;
     platform := platform;
     getexe := getexe Sample.world;
     get_resolution := get_resolution Sample.world;
     get_framerate := get_framerate Sample.world;
     float_str := float_str Sample.world;
     float_mul_str := float_mul_str Sample.world |}.

Definition noprobe : World :=
  {| is_file := is_file Sample.world;
     read_config := read_config Sample.world;
     read_text := read_text Sample.world;
     expanduser := expanduser Sample.world;
     platform := platform Sample.world;
     getexe := getexe Sample.world;
     get_resolution := fun _ _ => Ok None;
     get_framerate := fun _ _ => Ok None;
     float_str := float_str Sample.world;
     float_mul_str := float_mul_str Sample.world |}.

(** A host that has the key file [stream.key]: the key between blanks and
    a newline. *)
Definition keyed : World :=
  {| is_file := fun p =>
       ((p =? "pylivestream.ini") || (p =? "stream.key"))%string;
     read_config := fun _ => config;
     read_text := fun _ =>
       Ok ("  live_abc123 " ++ String (ascii_of_nat 10) "")%string;
     expanduser := expanduser Sample.world;
     platform := platform Sample.world;
     getexe := getexe Sample.world;
     get_resolution := get_resolution Sample.world;
     get_framerate := get_framerate Sample.world;
     float_str := float_str Sample.world;
     float_mul_str := float_mul_str Sample.world |}.

Definition plan (w : World) (site vidsource : string) (infn : option Path)
  : result Stream :=
  a <- Stream_init w "pylivestream.ini" site vidsource None false infn ;;
  osparam w a.

Definition screen_on (platform : string) : Stream :=
  Sample.built (plan (on platform) "youtube" "screen" None).
Definition corner_on (platform : string) : Stream :=
  Sample.built (plan (on platform) "corner" "screen" None).
Definition tiny (vidsource : string) : Stream :=
  Sample.built (plan (on "linux") "tiny" vidsource None).
Definition unprobed : Stream :=
  Eval vm_compute in
    Sample.built (plan noprobe "youtube" "file" (Some "talk.mp4")).

End Variant.

(** * Properties *)

(** ** The sample plans *)

(** [osparam] succeeds on each sample plan: none of them is [blank]. *)
Lemma sample_plans_built :
  Sample.plan "youtube" "camera" None false None = Ok Sample.camera /\
  Sample.plan "youtube" "screen" None false None = Ok Sample.screen /\
  Sample.plan "youtube" "file" None true (Some "talk.mp4") = Ok Sample.file /\
  Sample.plan "youtube" "file" (Some "cover.png") false (Some "talk.mp3")
  = Ok Sample.still /\
  Sample.plan "sd" "camera" None false None = Ok Sample.camera_sd /\
  Sample.plan "oversize" "camera" None false None
  = Ok Sample.camera_oversize /\
  Sample.plan "oversize" "screen" None false None
  = Ok Sample.screen_oversize /\
  Sample.plan "fixed" "camera" None false None = Ok Sample.camera_fixed /\
  Sample.plan "zero" "camera" None false None = Ok Sample.camera_zero.
Proof. repeat split; vm_compute; reflexivity. Qed.

(** A missing site section fails the assertion of [osparam]. *)
Lemma sample_plan_no_site :
  Sample.plan "nosuch" "camera" None false None = Raise AssertionError.
Proof. reflexivity. Qed.

(** ** The error monad *)

Lemma bind_Ok_inv {A B : Type} (m : result A) (k : A -> result B) (b : B) :
  bind m k = Ok b -> exists a, m = Ok a /\ k a = Ok b.
Proof.
  destruct m as [a|e]; simpl; intros H.
  - exists a. split; [reflexivity | exact H].
  - discriminate H.
Qed.

Lemma getitem_nth {A : Type} (a : list A) (i : nat) (d : A) :
  (i < List.length a)%nat -> getitem a i = Ok (nth i a d).
Proof.
  intros H. unfold getitem.
  rewrite (nth_error_nth' a d H). reflexivity.
Qed.

(** ** [bisect_left] *)

Lemma midpoint_bounds (lo hi : nat) :
  (lo < hi)%nat -> (lo <= (lo + hi) / 2 < hi)%nat.
Proof.
  intros H.
  pose proof (Nat.div_mod_eq (lo + hi) 2) as E.
  pose proof (Nat.mod_upper_bound (lo + hi) 2 ltac:(discriminate)) as M.
  lia.
Qed.

Lemma bisect_loop_S (fuel : nat) (a : list Z) (x : Z) (lo hi : nat) :
  bisect_loop (S fuel) a x lo hi =
  if (lo <? hi)%nat then
    am <- getitem a ((lo + hi) / 2)%nat ;;
    if (am <? x)%Z
    then bisect_loop fuel a x ((lo + hi) / 2 + 1)%nat hi
    else bisect_loop fuel a x lo ((lo + hi) / 2)%nat
  else Ok lo.
Proof. reflexivity. Qed.

(** The fuel handed to the loop is never the reason it stops: any fuel of
    at least [hi - lo] gives the same answer. *)
Lemma bisect_loop_fuel (a : list Z) (x : Z) :
  forall (fuel fuel' lo hi : nat),
    (hi - lo <= fuel)%nat -> (hi - lo <= fuel')%nat ->
    bisect_loop fuel a x lo hi = bisect_loop fuel' a x lo hi.
Proof.
  induction fuel as [|fuel IH]; intros fuel' lo hi Hf Hf'.
  - destruct fuel' as [|fuel']; [reflexivity|].
    rewrite bisect_loop_S.
    destruct (Nat.ltb_spec lo hi); [lia | reflexivity].
  - destruct fuel' as [|fuel']; rewrite bisect_loop_S.
    + destruct (Nat.ltb_spec lo hi); [lia | reflexivity].
    + rewrite bisect_loop_S.
      destruct (Nat.ltb_spec lo hi) as [Hlt|]; [|reflexivity].
      pose proof (midpoint_bounds lo hi Hlt) as Hm.
      destruct (getitem a ((lo + hi) / 2)) as [am|e]; [|reflexivity].
      unfold bind. destruct (am <? x)%Z; apply IH; lia.
Qed.

(** In particular more fuel than [len(a)] changes nothing in
    [bisect_left]. *)
Lemma bisect_left_fuel (a : list Z) (x : Z) (extra : nat) :
  bisect_loop (List.length a + extra) a x 0 (List.length a) = bisect_left a x.
Proof.
  unfold bisect_left. apply bisect_loop_fuel; lia.
Qed.

(** Index-wise reading of a strictly increasing list. *)
Lemma sorted_nth (a : list Z) :
  StronglySorted Z.lt a ->
  forall i j, (i < j < List.length a)%nat -> nth i a 0 < nth j a 0.
Proof.
  induction 1 as [|k a Hs IH Hall]; intros i j Hij; simpl in Hij; [lia|].
  destruct j as [|j]; [lia|]. destruct i as [|i]; simpl.
  - rewrite Forall_forall in Hall. apply Hall. apply nth_In. lia.
  - apply IH. lia.
Qed.

(** The loop keeps "everything left of [lo] is below [x]" and "everything
    from [hi] on is at least [x]", and ends on the boundary. *)
Lemma bisect_loop_spec (a : list Z) (x : Z) :
  StronglySorted Z.lt a ->
  forall (fuel lo hi : nat),
    (hi - lo <= fuel)%nat -> (lo <= hi <= List.length a)%nat ->
    (forall j, (j < lo)%nat -> nth j a 0 < x) ->
    (forall j, (hi <= j < List.length a)%nat -> x <= nth j a 0) ->
    exists i, bisect_loop fuel a x lo hi = Ok i /\
      (i <= List.length a)%nat /\
      (forall j, (j < i)%nat -> nth j a 0 < x) /\
      (forall j, (i <= j < List.length a)%nat -> x <= nth j a 0).
Proof.
  intros Hs. induction fuel as [|fuel IH]; intros lo hi Hf Hb Hlo Hhi.
  - exists lo. simpl. repeat split; try lia; [exact Hlo|].
    intros j Hj. apply Hhi. lia.
  - rewrite bisect_loop_S. destruct (Nat.ltb_spec lo hi) as [Hlt|Hge].
    + pose proof (midpoint_bounds lo hi Hlt) as Hm.
      rewrite (getitem_nth a _ 0) by lia. unfold bind.
      destruct (Z.ltb_spec (nth ((lo + hi) / 2) a 0) x) as [Hc|Hc].
      * apply IH; try lia; [|exact Hhi].
        intros j Hj.
        destruct (Nat.eq_dec j ((lo + hi) / 2)) as [->|Hne]; [exact Hc|].
        pose proof (sorted_nth a Hs j ((lo + hi) / 2)). lia.
      * apply IH; try lia; [exact Hlo|].
        intros j Hj.
        destruct (Nat.eq_dec j ((lo + hi) / 2)) as [->|Hne]; [exact Hc|].
        pose proof (sorted_nth a Hs ((lo + hi) / 2) j). lia.
    + exists lo. repeat split; try lia; [exact Hlo|].
      intros j Hj. apply Hhi. lia.
Qed.

Lemma bisect_left_spec (a : list Z) (x : Z) :
  StronglySorted Z.lt a ->
  exists i, bisect_left a x = Ok i /\
    (i <= List.length a)%nat /\
    (forall j, (j < i)%nat -> nth j a 0 < x) /\
    (forall j, (i <= j < List.length a)%nat -> x <= nth j a 0).
Proof.
  intros Hs. unfold bisect_left.
  apply bisect_loop_spec; try assumption; try lia.
Qed.

(** ** Table lookup against its reading in the specification *)

Lemma find_at_boundary {A : Type} (f : A -> bool) (d : A) :
  forall (l : list A) (i : nat),
    (i <= List.length l)%nat ->
    (forall j, (j < i)%nat -> f (nth j l d) = false) ->
    (forall j, (i <= j < List.length l)%nat -> f (nth j l d) = true) ->
    find f l = nth_error l i.
Proof.
  induction l as [|y l IH]; intros i Hi Hlt Hge.
  - destruct i; reflexivity.
  - destruct i as [|i].
    + pose proof (Hge 0%nat ltac:(simpl; lia)) as H0.
      simpl in *. rewrite H0. reflexivity.
    + pose proof (Hlt 0%nat ltac:(lia)) as H0.
      simpl in H0 |- *. rewrite H0.
      apply IH.
      * simpl in Hi. lia.
      * intros j Hj. apply (Hlt (S j)). lia.
      * intros j Hj. apply (Hge (S j)). simpl. lia.
Qed.

Lemma table_lookup_first_ge (BR : list (Z * Z)) (x : Z) :
  StronglySorted Z.lt (keys BR) ->
  table_lookup BR x =
  match first_ge BR x with
  | Some v => Ok v
  | None => Raise IndexError
  end.
Proof.
  intros Hs. unfold table_lookup, first_ge.
  destruct (bisect_left_spec (keys BR) x Hs) as (i & -> & Hi & Hlt & Hge).
  simpl. unfold keys in *. rewrite length_map in *.
  assert (Hnth : forall j, nth j (map fst BR) 0 = fst (nth j BR (0, 0))).
  { intros j. apply (map_nth fst BR (0, 0)). }
  rewrite (find_at_boundary _ (0, 0) BR i Hi).
  - unfold getitem, values. rewrite nth_error_map.
    destruct (nth_error BR i); reflexivity.
  - intros j Hj. apply Z.leb_gt. rewrite <- Hnth. apply Hlt. exact Hj.
  - intros j Hj. apply Z.leb_le. rewrite <- Hnth. apply Hge. exact Hj.
Qed.

Lemma BR30_sorted : StronglySorted Z.lt (keys BR30).
Proof. repeat constructor. Qed.

Lemma BR60_sorted : StronglySorted Z.lt (keys BR60).
Proof. repeat constructor. Qed.


(** ** The bitrate selector *)

Section FirstGe.

Variable BR : list (Z * Z).
Hypothesis BR_sorted : StronglySorted Z.lt (keys BR).

(** An exact key is its own first entry. *)
Lemma first_ge_key (x b : Z) :
  In (x, b) BR -> first_ge BR x = Some b.
Proof.
  revert BR_sorted. unfold first_ge, keys.
  induction BR as [|[k0 b0] t IH]; simpl; intros Hs Hin; [contradiction|].
  inversion Hs as [|? ? Hs' Hall]; subst.
  destruct Hin as [E|Hin].
  - inversion E; subst. rewrite Z.leb_refl. reflexivity.
  - rewrite Forall_forall in Hall.
    assert (k0 < x) as Hlt.
    { apply Hall. apply (in_map fst) in Hin. exact Hin. }
    apply Z.leb_gt in Hlt. rewrite Hlt. apply IH; assumption.
Qed.

(** Below or at some key, the lookup lands on the least key that is at
    least [x]. *)
Lemma first_ge_next (x hi : Z) :
  In hi (keys BR) -> x <= hi ->
  exists k b,
    In (k, b) BR /\ x <= k /\
    (forall k', In k' (keys BR) -> x <= k' -> k <= k') /\
    first_ge BR x = Some b.
Proof.
  revert BR_sorted. unfold first_ge, keys.
  induction BR as [|[k0 b0] t IH]; simpl; intros Hs Hin Hle; [contradiction|].
  inversion Hs as [|? ? Hs' Hall]; subst.
  rewrite Forall_forall in Hall.
  destruct (Z.leb_spec x k0) as [Hx|Hx].
  - exists k0, b0. repeat split; auto.
    intros k' [<-|Hk'] _; [lia|]. specialize (Hall k' Hk'). lia.
  - destruct Hin as [<-|Hin]; [lia|].
    destruct (IH Hs' Hin Hle) as (k & b & Hkb & Hxk & Hleast & Hfind).
    exists k, b. repeat split; auto.
    intros k' [<-|Hk'] Hxk'; [lia|]. apply Hleast; assumption.
Qed.

(** Above every key there is no entry. *)
Lemma first_ge_above (x : Z) :
  (forall k, In k (keys BR) -> k < x) -> first_ge BR x = None.
Proof.
  clear BR_sorted. unfold first_ge, keys.
  induction BR as [|[k0 b0] t IH]; simpl; intros Hall; [reflexivity|].
  assert (k0 < x) as Hlt by (apply Hall; left; reflexivity).
  apply Z.leb_gt in Hlt. rewrite Hlt. apply IH.
  intros k Hk. apply Hall. right. exact Hk.
Qed.

End FirstGe.

Lemma selected_table_sorted (s : Stream) :
  StronglySorted Z.lt (keys (selected_table s)).
Proof.
  unfold selected_table. destruct (low_fps s).
  - exact BR30_sorted.
  - exact BR60_sorted.
Qed.

(** Without an override, [video_bitrate] stores the first entry at or above
    the height, and raises [IndexError] when there is none. *)
Lemma video_bitrate_lookup (s : Stream) (x : Z) :
  truthy_int (video_kbps s) = false ->
  bitrate_height s = Ok (Some x) ->
  video_bitrate s =
  match first_ge (selected_table s) x with
  | Some b => Ok (set_video_kbps s (Some b))
  | None => Raise IndexError
  end.
Proof.
  intros Hno Hx. unfold video_bitrate. rewrite Hno, Hx. simpl.
  fold (selected_table s).
  rewrite (table_lookup_first_ge _ x (selected_table_sorted s)).
  destruct (first_ge (selected_table s) x); reflexivity.
Qed.

Lemma low_fps_true (s : Stream) :
  low_fps s = true <->
  fps s = None \/ exists f, fps s = Some f /\ (num_to_Q f <= inject_Z 30)%Q.
Proof.
  unfold low_fps, num_le_30. destruct (fps s) as [f|].
  - rewrite Qle_bool_iff. split.
    + intros H. right. exists f. split; [reflexivity | exact H].
    + intros [H|(f' & E & H)]; [discriminate|]. inversion E; subst. exact H.
  - split; [left; reflexivity | reflexivity].
Qed.

Lemma low_fps_false (s : Stream) :
  low_fps s = false <->
  exists f, fps s = Some f /\ (inject_Z 30 < num_to_Q f)%Q.
Proof.
  unfold low_fps, num_le_30. destruct (fps s) as [f|].
  - split.
    + intros H. exists f. split; [reflexivity|].
      apply Qnot_le_lt. intros Hle. apply Qle_bool_iff in Hle. congruence.
    + intros (f' & E & H). inversion E; subst.
      destruct (Qle_bool (num_to_Q f') (inject_Z 30)) eqn:Hb; [|reflexivity].
      apply Qle_bool_iff in Hb. exfalso. apply (Qlt_not_le _ _ H Hb).
  - split; [discriminate|]. intros (f & E & _). discriminate.
Qed.

(** The table value the lookup gives is what a run stores: on a plan whose
    height is [x], [video_bitrate] returns a plan whose [video_kbps] is the
    looked-up value, or the override where a true one is configured. *)
Lemma video_bitrate_stores (s : Stream) (x b : Z) :
  bitrate_height s = Ok (Some x) ->
  table_lookup (selected_table s) x = Ok b ->
  exists s',
    video_bitrate s = Ok s' /\
    video_kbps s' =
    (if truthy_int (video_kbps s) then video_kbps s else Some b).
Proof.
  intros Hx Hb. unfold video_bitrate.
  destruct (truthy_int (video_kbps s)).
  - exists s. split; reflexivity.
  - rewrite Hx. simpl. fold (selected_table s). rewrite Hb. simpl.
    eexists. split; reflexivity.
Qed.

(** C1: for a height that is an exact key of the selected table, the
    lookup returns exactly that key's bitrate; for a height strictly
    between two keys it returns the bitrate of the next higher key, the
    least key at or above the height; height 500 on the low-fps table
    gives 800. A run of [video_bitrate] on a plan of that height stores the
    returned bitrate in [video_kbps] (and keeps a true override, where one
    is configured). *)
Theorem video_bitrate_key_or_next (s : Stream) (x : Z) :
  (forall b, In (x, b) (selected_table s) ->
     table_lookup (selected_table s) x = Ok b /\
     (bitrate_height s = Ok (Some x) ->
      exists s', video_bitrate s = Ok s' /\
        video_kbps s' =
        (if truthy_int (video_kbps s) then video_kbps s else Some b))) /\
  (forall lo hi,
     In lo (keys (selected_table s)) -> In hi (keys (selected_table s)) ->
     lo < x < hi ->
     exists k b,
       In (k, b) (selected_table s) /\ x <= k /\
       (forall k', In k' (keys (selected_table s)) -> x <= k' -> k <= k') /\
       table_lookup (selected_table s) x = Ok b /\
       (bitrate_height s = Ok (Some x) ->
        exists s', video_bitrate s = Ok s' /\
          video_kbps s' =
          (if truthy_int (video_kbps s) then video_kbps s else Some b))) /\
  table_lookup BR30 500 = Ok 800 /\
  (low_fps s = true -> x = 500 -> bitrate_height s = Ok (Some x) ->
   exists s', video_bitrate s = Ok s' /\
     video_kbps s' =
     (if truthy_int (video_kbps s) then video_kbps s else Some 800)).
Proof.
  pose proof (selected_table_sorted s) as Hs.
  pose proof (table_lookup_first_ge (selected_table s) x Hs) as Hl.
  split; [|split; [|split]].
  - intros b Hin. rewrite (first_ge_key _ Hs x b Hin) in Hl.
    split; [exact Hl|]. intros Hx. apply (video_bitrate_stores s x b Hx Hl).
  - intros lo hi _ Hhi Hbetween.
    destruct (first_ge_next _ Hs x hi Hhi ltac:(lia))
      as (k & b & Hkb & Hxk & Hleast & Hfind).
    rewrite Hfind in Hl.
    exists k, b. repeat split; auto.
    intros Hx. apply (video_bitrate_stores s x b Hx Hl).
  - reflexivity.
  - intros Hlow -> Hx. apply (video_bitrate_stores s 500 800 Hx).
    unfold selected_table. rewrite Hlow. reflexivity.
Qed.

Lemma video_bitrate_key_or_next_witness :
  table_lookup (selected_table Sample.camera) 720 = Ok 1800 /\
  (exists s', video_bitrate Sample.camera = Ok s' /\
              video_kbps s' = Some 1800) /\
  (exists s', video_bitrate Sample.camera_fixed = Ok s' /\
              video_kbps s' = Some 2500) /\
  (exists k b,
     In (k, b) (selected_table Sample.camera_sd) /\ 500 <= k /\
     (forall k', In k' (keys (selected_table Sample.camera_sd)) ->
        500 <= k' -> k <= k') /\
     table_lookup (selected_table Sample.camera_sd) 500 = Ok b) /\
  (exists s', video_bitrate Sample.camera_sd = Ok s' /\
              video_kbps s' = Some 800).
Proof.
  pose proof (video_bitrate_key_or_next Sample.camera 720)
    as (Hkey & _ & _ & _).
  pose proof (video_bitrate_key_or_next Sample.camera_fixed 720)
    as (Hfix & _ & _ & _).
  pose proof (video_bitrate_key_or_next Sample.camera_sd 500)
    as (_ & Hnext & _ & H500).
  destruct (Hkey 1800 ltac:(vm_compute; tauto)) as [Hl Hrun].
  destruct (Hfix 1800 ltac:(vm_compute; tauto)) as [_ Hrunfix].
  split; [exact Hl|]. split; [exact (Hrun eq_refl)|].
  split; [exact (Hrunfix eq_refl)|]. split.
  - destruct (Hnext 480 540) as (k & b & Hkb & Hxk & Hleast & Hlk & _).
    + vm_compute. tauto.
    + vm_compute. tauto.
    + lia.
    + exists k, b. auto.
  - exact (H500 eq_refl eq_refl eq_refl).
Defined.

(** Above the largest key of the selected table [bisect_left] returns
    [len(keys)], and indexing the values with it raises. *)
Lemma video_bitrate_above_keys (s : Stream) (x : Z) :
  truthy_int (video_kbps s) = false ->
  bitrate_height s = Ok (Some x) ->
  (forall k, In k (keys (selected_table s)) -> k < x) ->
  video_bitrate s = Raise IndexError.
Proof.
  intros Hno Hx Habove.
  rewrite (video_bitrate_lookup s x Hno Hx).
  rewrite (first_ge_above _ x Habove). reflexivity.
Qed.

(** C2: on a 2161-pixel-high camera plan at 30 fps, and on a
    3000-pixel-high screen plan at 60 fps, both without override, the
    height lies above every key of the selected table and [video_bitrate]
    raises [IndexError]: it does not fall back to the last tier (13000,
    respectively 20000). *)
Theorem video_bitrate_oversize_raises :
  bitrate_height Sample.camera_oversize = Ok (Some 2161) /\
  low_fps Sample.camera_oversize = true /\
  video_bitrate Sample.camera_oversize = Raise IndexError /\
  bitrate_height Sample.screen_oversize = Ok (Some 3000) /\
  low_fps Sample.screen_oversize = false /\
  video_bitrate Sample.screen_oversize = Raise IndexError.
Proof. repeat split; reflexivity. Qed.

(** C3: without an override, [video_bitrate] reads the low-fps table when
    the frame rate is unset or at most 30 and the high-fps table when it is
    above 30; at 60 fps and height 1080 the stored bitrate is 4500. *)
Theorem video_bitrate_table_by_fps (s : Stream) (x : Z) :
  truthy_int (video_kbps s) = false ->
  bitrate_height s = Ok (Some x) ->
  (fps s = None \/
   (exists f, fps s = Some f /\ (num_to_Q f <= inject_Z 30)%Q) ->
   video_bitrate s =
   match first_ge BR30 x with
   | Some b => Ok (set_video_kbps s (Some b))
   | None => Raise IndexError
   end) /\
  ((exists f, fps s = Some f /\ (inject_Z 30 < num_to_Q f)%Q) ->
   video_bitrate s =
   match first_ge BR60 x with
   | Some b => Ok (set_video_kbps s (Some b))
   | None => Raise IndexError
   end) /\
  (fps s = Some (NInt 60) -> x = 1080 ->
   video_bitrate s = Ok (set_video_kbps s (Some 4500)) /\
   video_bitrate s <> Ok (set_video_kbps s (Some 3000))).
Proof.
  intros Hno Hx.
  pose proof (video_bitrate_lookup s x Hno Hx) as Hv.
  unfold selected_table in Hv.
  split; [|split].
  - intros Hlow. apply low_fps_true in Hlow. rewrite Hlow in Hv. exact Hv.
  - intros Hhigh. apply low_fps_false in Hhigh. rewrite Hhigh in Hv. exact Hv.
  - intros H60 ->. unfold low_fps in Hv. rewrite H60 in Hv.
    split; [exact Hv|].
    intros E. rewrite Hv in E. simpl in E. inversion E.
Qed.

Lemma video_bitrate_table_by_fps_witness :
  video_bitrate Sample.camera
  = Ok (set_video_kbps Sample.camera (Some 1800)) /\
  video_bitrate Sample.screen
  = Ok (set_video_kbps Sample.screen (Some 4500)) /\
  video_bitrate Sample.screen
  <> Ok (set_video_kbps Sample.screen (Some 3000)).
Proof.
  pose proof (video_bitrate_table_by_fps Sample.camera 720 eq_refl eq_refl)
    as (Hlow & _ & _).
  pose proof (video_bitrate_table_by_fps Sample.screen 1080 eq_refl eq_refl)
    as (_ & Hhigh & H60).
  split; [|split].
  - apply Hlow. right. exists (NInt 30). split; [reflexivity|].
    unfold Qle. simpl. lia.
  - apply Hhigh. exists (NInt 60). split; [reflexivity|].
    unfold Qlt. simpl. lia.
  - apply H60; reflexivity.
Defined.

(** The guard [if self.video_kbps: return]. *)
Lemma video_bitrate_guard (s : Stream) :
  truthy_int (video_kbps s) = true -> video_bitrate s = Ok s.
Proof.
  intros Ht. unfold video_bitrate. rewrite Ht. reflexivity.
Qed.

Lemma truthy_int_Some (v : Z) : v <> 0 -> truthy_int (Some v) = true.
Proof.
  intros Hnz. simpl. apply Z.eqb_neq in Hnz. rewrite Hnz. reflexivity.
Qed.

(** C4, as the code has it: a configured override other than 0 is kept;
    [video_bitrate] returns the plan as it is, whatever its resolution and
    frame rate. *)
Theorem video_bitrate_override_kept (s : Stream) (v : Z) :
  video_kbps s = Some v -> v <> 0 -> video_bitrate s = Ok s.
Proof.
  intros Hv Hnz. apply video_bitrate_guard.
  rewrite Hv. apply truthy_int_Some. exact Hnz.
Qed.

Lemma video_bitrate_override_kept_witness :
  video_kbps Sample.camera_fixed = Some 2500 /\
  video_bitrate Sample.camera_fixed = Ok Sample.camera_fixed /\
  video_bitrate (set_video_kbps Sample.camera_oversize (Some 2500))
  = Ok (set_video_kbps Sample.camera_oversize (Some 2500)).
Proof.
  split; [reflexivity|]. split.
  - apply (video_bitrate_override_kept Sample.camera_fixed 2500).
    + reflexivity.
    + discriminate.
  - apply (video_bitrate_override_kept
             (set_video_kbps Sample.camera_oversize (Some 2500)) 2500).
    + reflexivity.
    + discriminate.
Defined.

(** C4 as stated fails for [video_kbps = 0] in the configuration: the
    override is 0, the guard [if self.video_kbps] is false, and the table
    value 1800 replaces it. *)
Lemma video_bitrate_override_zero_replaced :
  Sample.plan "zero" "camera" None false None = Ok Sample.camera_zero /\
  video_kbps Sample.camera_zero = Some 0 /\
  video_bitrate Sample.camera_zero
  = Ok (set_video_kbps Sample.camera_zero (Some 1800)) /\
  ~ (exists s', video_bitrate Sample.camera_zero = Ok s' /\
                video_kbps s' = video_kbps Sample.camera_zero).
Proof.
  repeat split.
  intros (s' & Hs' & Hk). vm_compute in Hs'. inversion Hs'; subst s'.
  discriminate Hk.
Qed.

Lemma table_values_positive :
  Forall (fun v => 0 < v) (values BR30) /\ Forall (fun v => 0 < v) (values BR60).
Proof. split; repeat constructor. Qed.

Lemma getitem_In {A : Type} (a : list A) (i : nat) (v : A) :
  getitem a i = Ok v -> In v a.
Proof.
  unfold getitem. destruct (nth_error a i) eqn:E; intros H; inversion H; subst.
  apply (nth_error_In _ _ E).
Qed.

(** A successful run leaves a true [video_kbps]: the override it found, or
    a positive table value. *)
Lemma video_bitrate_result (s s' : Stream) :
  video_bitrate s = Ok s' ->
  (truthy_int (video_kbps s) = true /\ s' = s) \/
  (truthy_int (video_kbps s) = false /\
   exists v, s' = set_video_kbps s (Some v) /\ 0 < v /\
             In v (values (selected_table s))).
Proof.
  unfold video_bitrate. destruct (truthy_int (video_kbps s)).
  - intros H. inversion H. left. split; reflexivity.
  - intros H. right. split; [reflexivity|].
    apply bind_Ok_inv in H. destruct H as ([x|] & _ & H); [|discriminate].
    apply bind_Ok_inv in H. destruct H as (v & Hl & H).
    inversion H; subst s'. exists v.
    unfold table_lookup in Hl. apply bind_Ok_inv in Hl.
    destruct Hl as (i & _ & Hi). apply getitem_In in Hi.
    fold (selected_table s) in Hi.
    split; [reflexivity|]. split; [|exact Hi].
    destruct table_values_positive as [H30 H60].
    rewrite Forall_forall in H30, H60.
    unfold selected_table in Hi. destruct (low_fps s); auto.
Qed.

(** C10: [video_bitrate] is idempotent. When a run succeeds, a second run
    on the resulting plan returns that plan unchanged; a bitrate filled in
    from a table is positive, hence true, and is from then on treated as
    an override. *)
Theorem video_bitrate_idempotent (s s' : Stream) :
  video_bitrate s = Ok s' ->
  video_bitrate s' = Ok s' /\
  (truthy_int (video_kbps s) = false ->
   exists v, video_kbps s' = Some v /\ 0 < v /\
             s' = set_video_kbps s (Some v)).
Proof.
  intros H. destruct (video_bitrate_result s s' H) as [[Ht ->]|[Hf Hv]].
  - split; [exact H|]. intros Hf. congruence.
  - destruct Hv as (v & -> & Hpos & _). split.
    + apply video_bitrate_guard. apply truthy_int_Some. lia.
    + intros _. exists v. auto.
Qed.

Lemma video_bitrate_idempotent_witness :
  video_bitrate (set_video_kbps Sample.camera (Some 1800))
  = Ok (set_video_kbps Sample.camera (Some 1800)) /\
  (exists v, video_kbps (set_video_kbps Sample.camera (Some 1800)) = Some v /\
             0 < v /\
             set_video_kbps Sample.camera (Some 1800)
             = set_video_kbps Sample.camera (Some v)).
Proof.
  pose proof (video_bitrate_idempotent Sample.camera
                (set_video_kbps Sample.camera (Some 1800)) eq_refl)
    as (Hagain & Hfilled).
  split; [exact Hagain|]. apply Hfilled. reflexivity.
Defined.

(** ** Audio input assembly *)

Lemma truthy_str_set (o : option string) : truthy_str o = true <-> is_set o.
Proof.
  unfold is_set. destruct o as [v|]; simpl.
  - rewrite negb_true_iff, String.eqb_neq. split.
    + intros H. exists v. split; [reflexivity | exact H].
    + intros (v' & E & H). inversion E; subst. exact H.
  - split; [discriminate|]. intros (v & E & _). discriminate.
Qed.

Lemma truthy_str_unset (o : option string) :
  truthy_str o = false <-> ~ is_set o.
Proof.
  rewrite <- truthy_str_set. destruct (truthy_str o); split; intros H;
    try reflexivity; try discriminate; congruence.
Qed.

(** C5: with audio bitrate, capture format and channel all set and a video
    source other than "file", [audiostream] is exactly
    [-f, acap, -i, audiochan]; with any of the three unset, or with a file
    source, it is empty. *)
Theorem audiostream_tokens (s : Stream) :
  (is_set (audio_bps s) -> is_set (acap s) -> is_set (audiochan s) ->
   vidsource (init s) <> "file" ->
   exists cap chan,
     acap s = Some cap /\ audiochan s = Some chan /\
     audiostream s = ["-f"; cap; "-i"; chan]) /\
  (~ is_set (audio_bps s) \/ ~ is_set (acap s) \/ ~ is_set (audiochan s) \/
   vidsource (init s) = "file" ->
   audiostream s = []).
Proof.
  unfold audiostream, no_audio. split.
  - intros Hb Hc Hch Hsrc.
    apply truthy_str_set in Hb. rewrite Hb.
    pose proof Hc as Hc'. pose proof Hch as Hch'.
    apply truthy_str_set in Hc'. apply truthy_str_set in Hch'.
    rewrite Hc', Hch'. simpl.
    apply String.eqb_neq in Hsrc. rewrite Hsrc. simpl.
    destruct Hc as (cap & Ec & _). destruct Hch as (chan & Ech & _).
    exists cap, chan. rewrite Ec, Ech. auto.
  - intros [H|[H|[H|H]]].
    + apply truthy_str_unset in H. rewrite H. reflexivity.
    + apply truthy_str_unset in H. rewrite H.
      destruct (truthy_str (audio_bps s)); reflexivity.
    + apply truthy_str_unset in H. rewrite H.
      destruct (truthy_str (audio_bps s)), (truthy_str (acap s)); reflexivity.
    + rewrite H. simpl.
      destruct (negb _ || negb _ || negb _); reflexivity.
Qed.

Lemma audiostream_tokens_witness :
  audiostream Sample.camera = ["-f"; "pulse"; "-i"; "default"] /\
  audiostream Sample.file = [].
Proof.
  split.
  - destruct (proj1 (audiostream_tokens Sample.camera))
      as (cap & chan & Ec & Ech & Ha).
    + exists "128k". split; [reflexivity | discriminate].
    + exists "pulse". split; [reflexivity | discriminate].
    + exists "default". split; [reflexivity | discriminate].
    + discriminate.
    + inversion Ec. inversion Ech. subst. exact Ha.
  - apply (proj2 (audiostream_tokens Sample.file)).
    right. right. right. reflexivity.
Defined.

(** ** Network buffer assembly *)

Lemma buffer_still (s : Stream) (server : string) (img : Path) :
  image (init s) = Some img ->
  buffer s server =
  Ok (["-threads"; "0"; "-shortest"] ++
      (if (server =? "-")%string then ["-f"; "null"] else ["-f"; "flv"])).
Proof.
  intros Hi. unfold buffer. rewrite Hi. simpl.
  destruct (server =? "-")%string; reflexivity.
Qed.

Lemma buffer_motion (s : Stream) (server : string) (v : Z) :
  image (init s) = None -> video_kbps s = Some v ->
  buffer s server =
  Ok (["-threads"; "0"] ++
      ["-maxrate"; (str_int v ++ "k")%string;
       "-bufsize"; (str_int (2 * v) ++ "k")%string] ++
      (if (server =? "-")%string then ["-f"; "null"] else ["-f"; "flv"])).
Proof.
  intros Hi Hv. unfold buffer. rewrite Hi, Hv.
  unfold truthy_path, negb, int_mul_opt, str_opt_int, bind.
  destruct (server =? "-")%string; reflexivity.
Qed.

(** C6: for a still-image plan [buffer] contains [-shortest] and neither
    [-maxrate] nor [-bufsize]; for a motion-video plan with resolved
    bitrate [v] it contains [-maxrate] followed by [v] and [-bufsize]
    followed by [2 v], both suffixed with [k]: 3000 gives [3000k] and
    [6000k]. *)
Theorem buffer_rate_flags (s : Stream) (server : string) :
  (forall img, image (init s) = Some img ->
     exists out, buffer s server = Ok out /\
       In "-shortest" out /\ ~ In "-maxrate" out /\ ~ In "-bufsize" out) /\
  (forall v, image (init s) = None -> video_kbps s = Some v ->
     exists pre post, buffer s server =
       Ok (pre ++ ["-maxrate"; (str_int v ++ "k")%string;
                   "-bufsize"; (str_int (2 * v) ++ "k")%string] ++ post)) /\
  (image (init s) = None -> video_kbps s = Some 3000 ->
     exists pre post, buffer s server =
       Ok (pre ++ ["-maxrate"; "3000k"; "-bufsize"; "6000k"] ++ post)).
Proof.
  split; [|split].
  - intros img Hi. rewrite (buffer_still s server img Hi).
    eexists. split; [reflexivity|].
    destruct (server =? "-")%string; simpl;
      (split; [tauto|]); split; intros H;
      repeat (destruct H as [H|H]; [discriminate H|]); exact H.
  - intros v Hi Hv. rewrite (buffer_motion s server v Hi Hv).
    eexists. eexists. reflexivity.
  - intros Hi Hv. rewrite (buffer_motion s server 3000 Hi Hv).
    eexists. eexists. reflexivity.
Qed.

Lemma buffer_rate_flags_witness :
  (exists out, buffer Sample.still "rtmp://host/live" = Ok out /\
     In "-shortest" out /\ ~ In "-maxrate" out /\ ~ In "-bufsize" out) /\
  (exists pre post,
     buffer Sample.camera_fixed "-" =
     Ok (pre ++ ["-maxrate"; (str_int 2500 ++ "k")%string;
                 "-bufsize"; (str_int (2 * 2500) ++ "k")%string] ++ post)) /\
  (exists pre post,
     buffer (set_video_kbps Sample.file (Some 3000)) "rtmp://host/live" =
     Ok (pre ++ ["-maxrate"; "3000k"; "-bufsize"; "6000k"] ++ post)).
Proof.
  split; [|split].
  - apply (proj1 (buffer_rate_flags Sample.still "rtmp://host/live")
             "cover.png").
    reflexivity.
  - apply (proj1 (proj2 (buffer_rate_flags Sample.camera_fixed "-")) 2500);
      reflexivity.
  - apply (proj2 (proj2 (buffer_rate_flags
                           (set_video_kbps Sample.file (Some 3000))
                           "rtmp://host/live")));
      reflexivity.
Defined.

(** ** File input assembly *)

(** C8, as the code has it: for a file plan with [loop] set, no still
    image, and a media path that [expanduser] resolves, [filein] is
    [-re, -stream_loop, -1, -i, path]: the pacing flag comes before the
    loop flag and the expanded media path is the last token, after its
    [-i]; whenever [videostream] returns, its input flags are that
    fragment. *)
Theorem filein_loop_tokens (w : World) (s : Stream) (p fn : Path) :
  vidsource (init s) = "file" ->
  loop (init s) = true ->
  image (init s) = None ->
  infn (init s) = Some p ->
  expanduser w p = Ok fn ->
  exists out,
    filein w s = Ok out /\
    out = ["-re"; "-stream_loop"; "-1"; "-i"; fn] /\
    (exists l1 l2 l3, out = l1 ++ "-re" :: l2 ++ "-stream_loop" :: l3) /\
    (exists l, out = l ++ ["-i"; fn]) /\
    (forall vid1 vid2, videostream w s = Ok (vid1, vid2) -> vid1 = out).
Proof.
  intros Hsrc Hloop Himg Hinfn Hfn.
  assert (Hf : filein w s = Ok ["-re"; "-stream_loop"; "-1"; "-i"; fn]).
  { unfold filein. rewrite Hinfn, Hfn, Himg, Hloop. reflexivity. }
  eexists. split; [exact Hf|]. split; [reflexivity|].
  split; [|split].
  - exists [], [], ["-1"; "-i"; fn]. reflexivity.
  - exists ["-re"; "-stream_loop"; "-1"]. reflexivity.
  - intros vid1 vid2 Hvs. unfold videostream in Hvs.
    rewrite Hsrc, Hf, Himg in Hvs. simpl in Hvs.
    destruct (str_int_mul_num w (keyframe_sec s) _) as [g|e];
      simpl in Hvs; inversion Hvs. reflexivity.
Qed.

Lemma filein_loop_tokens_witness :
  filein Sample.world Sample.file
  = Ok ["-re"; "-stream_loop"; "-1"; "-i"; "talk.mp4"].
Proof.
  destruct (filein_loop_tokens Sample.world Sample.file "talk.mp4" "talk.mp4"
              eq_refl eq_refl eq_refl eq_refl eq_refl)
    as (out & Hf & Hout & _).
  rewrite Hf, Hout. reflexivity.
Defined.

(** C8 as stated fails on a media path whose home directory cannot be
    found: the plan is a file plan with [loop] set and no still image,
    [osparam] builds it, and [filein] raises [RuntimeError] at
    [self.infn.expanduser()] without returning a fragment. *)
Lemma filein_loop_unknown_home :
  Sample.plan "youtube" "file" None true (Some "~nosuchuser/talk.mp4")
  = Ok Sample.file_nohome /\
  vidsource (init Sample.file_nohome) = "file" /\
  loop (init Sample.file_nohome) = true /\
  image (init Sample.file_nohome) = None /\
  infn (init Sample.file_nohome) = Some "~nosuchuser/talk.mp4" /\
  filein Sample.world Sample.file_nohome = Raise RuntimeError /\
  ~ (exists out, filein Sample.world Sample.file_nohome = Ok out).
Proof.
  repeat split. intros [out H]. discriminate H.
Qed.

(** ** Unknown video sources *)

Section UnknownSource.

Variable kind : string.
Hypothesis not_camera : kind <> "camera".
Hypothesis not_screen : kind <> "screen".
Hypothesis not_file : kind <> "file".

Lemma osparam_source_unknown (w : World) (C : ConfigParser)
  (a : StreamInit) (probe : string) :
  vidsource a = kind -> osparam_source w C a probe = Raise ValueError.
Proof.
  intros Hk. unfold osparam_source. rewrite Hk.
  apply String.eqb_neq in not_camera, not_screen, not_file.
  rewrite not_camera, not_screen, not_file. reflexivity.
Qed.

Lemma osparam_unknown_cases (w : World) (a : StreamInit) :
  vidsource a = kind ->
  osparam w a =
  if is_file w (ini a) then
    if cfg_contains (read_config w (ini a)) (site a) then
      match getexe w (configured_exe w (read_config w (ini a))) with
      | Ok _ => Raise ValueError
      | Raise e => Raise e
      end
    else Raise AssertionError
  else Raise AssertionError.
Proof.
  intros Hk. unfold osparam.
  destruct (is_file w (ini a)); [|reflexivity]. simpl.
  destruct (cfg_contains _ _); [|reflexivity]. simpl.
  destruct (getexe w _) as [[e p]|e]; [|reflexivity]. simpl.
  rewrite (osparam_source_unknown w _ a p Hk). reflexivity.
Qed.

(** C9: for a video source that is none of camera, screen and file,
    [osparam] raises, so no plan is returned: [ValueError] once the
    configuration file, the site section and the executables are found,
    and the error of that earlier step otherwise; [videostream] raises
    [ValueError] and returns no fragment. *)
Theorem unknown_vidsource_raises :
  (forall w a, vidsource a = kind -> exists e, osparam w a = Raise e) /\
  (forall w a exes,
     vidsource a = kind ->
     is_file w (ini a) = true ->
     cfg_contains (read_config w (ini a)) (site a) = true ->
     getexe w (configured_exe w (read_config w (ini a))) = Ok exes ->
     osparam w a = Raise ValueError) /\
  (forall w s,
     vidsource (init s) = kind -> videostream w s = Raise ValueError).
Proof.
  split; [|split].
  - intros w a Hk. rewrite (osparam_unknown_cases w a Hk).
    destruct (is_file w (ini a)); [|eexists; reflexivity].
    destruct (cfg_contains _ _); [|eexists; reflexivity].
    destruct (getexe w _); eexists; reflexivity.
  - intros w a exes Hk Hf Hc He.
    rewrite (osparam_unknown_cases w a Hk), Hf, Hc, He. reflexivity.
  - intros w s Hk. unfold videostream. rewrite Hk.
    apply String.eqb_neq in not_camera, not_screen, not_file.
    rewrite not_camera, not_screen, not_file. reflexivity.
Qed.

End UnknownSource.

Lemma unknown_vidsource_raises_witness :
  Sample.plan "youtube" "tv" None false None = Raise ValueError /\
  (forall s, vidsource (init s) = "tv" ->
     videostream Sample.world s = Raise ValueError).
Proof.
  assert (H : "tv" <> "camera" /\ "tv" <> "screen" /\ "tv" <> "file").
  { repeat split; discriminate. }
  destruct H as (Hc & Hs & Hf).
  destruct (unknown_vidsource_raises "tv" Hc Hs Hf) as (_ & Hos & Hvs).
  split.
  - change (osparam Sample.world
              {| ini := "pylivestream.ini"; site := "youtube";
                 vidsource := "tv"; image := None; loop := false;
                 infn := None |} = Raise ValueError).
    apply (Hos Sample.world _ ("ffmpeg", "ffprobe")); reflexivity.
  - exact (Hvs Sample.world).
Defined.

(** ** The multi-stream reconciler *)

Section ArgMin.

(** The bitrates of plans that are all resolved. *)
Variable bitrates : list Z.

Let vid_bw : list (option Z) := map Some bitrates.

Lemma vid_bw_getitem (i : nat) (v : Z) :
  nth_error bitrates i = Some v -> getitem vid_bw i = Ok (Some v).
Proof.
  intros H. unfold getitem, vid_bw. rewrite nth_error_map, H. reflexivity.
Qed.

(** The loop invariant of [min]: the running minimum is at most every
    bitrate seen so far and strictly below every bitrate left of it. *)
Lemma min_loop_argmin :
  forall (n start m : nat) (v : Z),
    (start + n = List.length bitrates)%nat ->
    (m < start)%nat ->
    nth_error bitrates m = Some v ->
    (forall j u, (j < start)%nat -> nth_error bitrates j = Some u -> v <= u) ->
    (forall j u, (j < m)%nat -> nth_error bitrates j = Some u -> v < u) ->
    exists i r,
      min_loop (getitem vid_bw) m (Some v) (seq start n) = Ok i /\
      nth_error bitrates i = Some r /\
      (forall j u, nth_error bitrates j = Some u -> r <= u) /\
      (forall j u, (j < i)%nat -> nth_error bitrates j = Some u -> r < u).
Proof.
  induction n as [|n IH]; intros start m v Hlen Hm Hv Hmin Hleft.
  - exists m, v. simpl. repeat split; auto.
    intros j u Hj. apply (Hmin j u); [|exact Hj].
    assert (j < List.length bitrates)%nat
      by (apply nth_error_Some; congruence).
    lia.
  - simpl.
    destruct (nth_error bitrates start) as [w0|] eqn:Hw0.
    2:{ apply nth_error_None in Hw0. lia. }
    rewrite (vid_bw_getitem start w0 Hw0). simpl.
    destruct (Z.ltb_spec w0 v) as [Hlt|Hge].
    + apply IH; try lia; [exact Hw0 | |].
      * intros j u Hj Hu.
        destruct (Nat.eq_dec j start) as [->|Hne].
        { assert (u = w0) by congruence. lia. }
        assert (v <= u) by (apply (Hmin j u); [lia | exact Hu]). lia.
      * intros j u Hj Hu.
        assert (v <= u) by (apply (Hmin j u); [lia | exact Hu]). lia.
    + apply IH; try lia; [exact Hv | | exact Hleft].
      intros j u Hj Hu.
      destruct (Nat.eq_dec j start) as [->|Hne].
      { assert (u = w0) by congruence. lia. }
      apply (Hmin j u); [lia | exact Hu].
Qed.

End ArgMin.

Lemma py_min_argmin (bitrates : list Z) :
  bitrates <> [] ->
  exists i r,
    py_min (getitem (map Some bitrates))
      (seq 0 (List.length (map Some bitrates))) = Ok i /\
    nth_error bitrates i = Some r /\
    (forall j u, nth_error bitrates j = Some u -> r <= u) /\
    (forall j u, (j < i)%nat -> nth_error bitrates j = Some u -> r < u).
Proof.
  intros Hne. rewrite length_map.
  destruct bitrates as [|v0 rest]; [congruence|].
  set (bs := v0 :: rest).
  assert (H0 : nth_error bs 0 = Some v0) by reflexivity.
  change (List.length bs) with (S (List.length rest)).
  simpl seq. unfold py_min.
  rewrite (vid_bw_getitem bs 0 v0 H0). simpl bind.
  apply (min_loop_argmin bs (List.length rest) 1 0 v0).
  - reflexivity.
  - lia.
  - exact H0.
  - intros j u Hj Hu. assert (j = 0)%nat by lia. subst j.
    rewrite H0 in Hu. inversion Hu. lia.
  - intros j u Hj. lia.
Qed.

(** [unify_streams] looks at the plans through their bitrates only. *)
Lemma unify_streams_bitrates {A : Type} (self : A) (streams : list Stream) :
  unify_streams self streams =
  match map video_kbps streams with
  | [] => Ok None
  | vid_bw =>
      i <- py_min (getitem vid_bw) (seq 0 (List.length vid_bw)) ;;
      Ok (Some i)
  end.
Proof. destruct streams; reflexivity. Qed.

(** C7: on resolved plans [unify_streams] returns the index of a plan of
    minimal video bitrate, the leftmost such index when several tie; on
    the empty collection it returns [None]; bitrates [4500, 3000, 6000]
    give index 1 and [3000, 3000] gives index 0. *)
Theorem unify_streams_argmin {A : Type} (self : A) :
  unify_streams self [] = Ok None /\
  (forall streams bitrates,
     streams <> [] ->
     map video_kbps streams = map Some bitrates ->
     exists i r,
       unify_streams self streams = Ok (Some i) /\
       nth_error bitrates i = Some r /\
       (forall j u, nth_error bitrates j = Some u -> r <= u) /\
       (forall j u, (j < i)%nat -> nth_error bitrates j = Some u -> r < u)) /\
  (forall streams,
     map video_kbps streams = [Some 4500; Some 3000; Some 6000] ->
     unify_streams self streams = Ok (Some 1%nat)) /\
  (forall streams,
     map video_kbps streams = [Some 3000; Some 3000] ->
     unify_streams self streams = Ok (Some 0%nat)).
Proof.
  split; [reflexivity|]. split; [|split].
  - intros streams bitrates Hne Hbw.
    assert (Hb : bitrates <> []).
    { intros ->. destruct streams; [congruence | discriminate Hbw]. }
    destruct (py_min_argmin bitrates Hb) as (i & r & Hmin & Hr & Hle & Hlt).
    exists i, r. rewrite unify_streams_bitrates, Hbw.
    destruct bitrates as [|b bs]; [congruence|].
    change (map Some (b :: bs)) with (Some b :: map Some bs) in *.
    cbv beta iota zeta. rewrite Hmin. auto.
  - intros streams Hbw. rewrite unify_streams_bitrates, Hbw. reflexivity.
  - intros streams Hbw. rewrite unify_streams_bitrates, Hbw. reflexivity.
Qed.

Lemma unify_streams_argmin_witness :
  (exists i r,
     unify_streams tt
       [set_video_kbps Sample.screen (Some 4500);
        set_video_kbps Sample.file (Some 3000);
        set_video_kbps Sample.camera (Some 3000)] = Ok (Some i) /\
     nth_error [4500; 3000; 3000] i = Some r /\
     (forall j u, nth_error [4500; 3000; 3000] j = Some u -> r <= u) /\
     (forall j u, (j < i)%nat ->
        nth_error [4500; 3000; 3000] j = Some u -> r < u)) /\
  unify_streams tt
    [set_video_kbps Sample.screen (Some 4500);
     set_video_kbps Sample.file (Some 3000);
     set_video_kbps Sample.camera_oversize (Some 6000)] = Ok (Some 1%nat) /\
  unify_streams tt
    [set_video_kbps Sample.file (Some 3000);
     set_video_kbps Sample.file (Some 3000)] = Ok (Some 0%nat).
Proof.
  destruct (unify_streams_argmin tt) as (_ & Hmin & H1 & H0).
  split; [|split].
  - apply Hmin; [discriminate | reflexivity].
  - apply H1. reflexivity.
  - apply H0. reflexivity.
Defined.

(** * Further properties *)

(** ** Outcomes of [video_bitrate] *)

(** Both tables end at 2160. *)
Lemma selected_table_top (s : Stream) :
  In 2160 (keys (selected_table s)) /\
  (forall k, In k (keys (selected_table s)) -> k <= 2160).
Proof.
  unfold selected_table. destruct (low_fps s); split;
    try (vm_compute; tauto);
    intros k Hk; simpl in Hk;
    repeat (destruct Hk as [<-|Hk]; [lia|]); contradiction.
Qed.

Lemma first_ge_Some_iff (s : Stream) (x : Z) :
  (exists b, first_ge (selected_table s) x = Some b) <-> x <= 2160.
Proof.
  destruct (selected_table_top s) as [Htop Hmax]. split.
  - intros [b Hb]. destruct (Z.le_gt_cases x 2160) as [|Hgt]; [assumption|].
    rewrite first_ge_above in Hb; [discriminate|].
    intros k Hk. specialize (Hmax k Hk). lia.
  - intros Hle.
    destruct (first_ge_next _ (selected_table_sorted s) x 2160 Htop Hle)
      as (k & b & _ & _ & _ & Hb).
    exists b. exact Hb.
Qed.

Lemma first_ge_In (BR : list (Z * Z)) (x b : Z) :
  first_ge BR x = Some b -> In b (values BR).
Proof.
  unfold first_ge, values.
  destruct (find _ BR) as [[k v]|] eqn:Hf; simpl; intros H; inversion H; subst.
  apply find_some in Hf. destruct Hf as [Hin _].
  apply (in_map snd) in Hin. exact Hin.
Qed.

(** The step succeeds exactly on a plan with a true override, or with a
    readable height of at most 2160. *)
Theorem video_bitrate_succeeds_iff (s : Stream) :
  (exists s', video_bitrate s = Ok s') <->
  truthy_int (video_kbps s) = true \/
  exists x, bitrate_height s = Ok (Some x) /\ x <= 2160.
Proof.
  split.
  - intros [s' Hs']. destruct (truthy_int (video_kbps s)) eqn:Ht; [left; auto|].
    right. unfold video_bitrate in Hs'. rewrite Ht in Hs'.
    apply bind_Ok_inv in Hs'. destruct Hs' as ([x|] & Hx & Hrest).
    + exists x. split; [exact Hx|].
      apply (first_ge_Some_iff s). simpl in Hrest.
      fold (selected_table s) in Hrest.
      rewrite (table_lookup_first_ge _ x (selected_table_sorted s)) in Hrest.
      destruct (first_ge (selected_table s) x) as [b|];
        [exists b; reflexivity | discriminate Hrest].
    + simpl in Hrest. discriminate Hrest.
  - intros [Ht|(x & Hx & Hle)].
    + exists s. apply video_bitrate_guard. exact Ht.
    + destruct (truthy_int (video_kbps s)) eqn:Ht.
      * exists s. apply video_bitrate_guard. exact Ht.
      * apply (first_ge_Some_iff s) in Hle. destruct Hle as [b Hb].
        exists (set_video_kbps s (Some b)).
        rewrite (video_bitrate_lookup s x Ht Hx), Hb. reflexivity.
Qed.

Lemma video_bitrate_succeeds_iff_witness :
  (exists s', video_bitrate Sample.camera = Ok s') /\
  ~ (exists s', video_bitrate Sample.camera_oversize = Ok s').
Proof.
  split.
  - apply (proj2 (video_bitrate_succeeds_iff Sample.camera)).
    right. exists 720. split; [reflexivity | lia].
  - intros H. apply (proj1 (video_bitrate_succeeds_iff _)) in H.
    destruct H as [H|(x & Hx & Hle)]; [discriminate H|].
    vm_compute in Hx. inversion Hx. subst x. lia.
Defined.

Lemma video_bitrate_raises_cases (s : Stream) (e : exn) :
  video_bitrate s = Raise e ->
  truthy_int (video_kbps s) = false /\
  ((e = UnboundLocalError /\ res s = None /\ vidsource (init s) <> "file") \/
   (e = IndexError /\ exists r, res s = Some r /\ (List.length r < 2)%nat) \/
   (e = ValueError /\ exists r t,
      res s = Some r /\ nth_error r 1 = Some (PyStr t) /\
      int_of_str t = Raise ValueError) \/
   (e = IndexError /\ exists x, bitrate_height s = Ok (Some x) /\ 2160 < x)).
Proof.
  unfold video_bitrate.
  destruct (truthy_int (video_kbps s)); [discriminate|].
  intros H. split; [reflexivity|].
  destruct (bitrate_height s) as [[x|]|e'] eqn:Hx; simpl in H.
  - right. right. right.
    fold (selected_table s) in H.
    rewrite (table_lookup_first_ge _ x (selected_table_sorted s)) in H.
    destruct (first_ge (selected_table s) x) as [b|] eqn:Hb;
      simpl in H; [discriminate H|].
    inversion H. split; [reflexivity|]. exists x. split; [reflexivity|].
    destruct (Z.le_gt_cases x 2160) as [Hle|Hgt]; [|lia].
    apply (first_ge_Some_iff s) in Hle. destruct Hle as [b Hb']. congruence.
  - left. inversion H. unfold bitrate_height in Hx.
    destruct (res s) as [r|].
    + destruct (getitem r 1) as [v|]; simpl in Hx; [|discriminate Hx].
      destruct (py_int v); discriminate Hx.
    + destruct (String.eqb_spec (vidsource (init s)) "file");
        [discriminate Hx | auto].
  - inversion H; subst e'. unfold bitrate_height in Hx.
    destruct (res s) as [r|].
    + unfold getitem in Hx.
      destruct (nth_error r 1) as [v|] eqn:Hv; simpl in Hx.
      * right. right. left. destruct v as [z|t]; simpl in Hx;
          [discriminate Hx|].
        unfold int_of_str in Hx.
        destruct (signed_digits _) eqn:Hd; [discriminate Hx|].
        inversion Hx. split; [reflexivity|]. exists r, t.
        repeat split; [exact Hv|].
        unfold int_of_str. rewrite Hd. reflexivity.
      * right. left. inversion Hx. split; [reflexivity|].
        exists r. split; [reflexivity|]. apply nth_error_None in Hv. lia.
    + destruct (vidsource (init s) =? "file")%string; discriminate Hx.
Qed.

(** Every way the step can raise: [x] was never bound (no resolution and
    not a file source), [res] has no second entry, the second entry is not
    a number, or the height lies above the last key. *)
Theorem video_bitrate_raises (s : Stream) (e : exn) :
  video_bitrate s = Raise e ->
  truthy_int (video_kbps s) = false /\
  ((e = UnboundLocalError /\ res s = None /\ vidsource (init s) <> "file") \/
   (e = IndexError /\ exists r, res s = Some r /\ (List.length r < 2)%nat) \/
   (e = ValueError /\ exists r t,
      res s = Some r /\ nth_error r 1 = Some (PyStr t) /\
      int_of_str t = Raise ValueError) \/
   (e = IndexError /\ exists x, bitrate_height s = Ok (Some x) /\ 2160 < x)).
Proof. apply video_bitrate_raises_cases. Qed.

Lemma video_bitrate_raises_witness :
  truthy_int (video_kbps Sample.camera_oversize) = false /\
  exists x, bitrate_height Sample.camera_oversize = Ok (Some x) /\ 2160 < x.
Proof.
  destruct (video_bitrate_raises Sample.camera_oversize IndexError eq_refl)
    as [Ht [(E & _)|[(_ & r & Hr & Hlen)|[(E & _)|(_ & H)]]]].
  - discriminate E.
  - vm_compute in Hr. inversion Hr. subst r. simpl in Hlen. lia.
  - discriminate E.
  - split; [exact Ht | exact H].
Defined.

(** A plan without resolution: a file source is taken to be 720 pixels
    high, and the run stores 1800 at low fps and 2250 at high fps in
    [video_kbps]; any other source leaves [x] unbound. *)
Theorem video_bitrate_unknown_resolution (s : Stream) :
  truthy_int (video_kbps s) = false ->
  res s = None ->
  (vidsource (init s) = "file" ->
   exists s',
     video_bitrate s = Ok s' /\
     video_kbps s' = Some (if low_fps s then 1800 else 2250) /\
     s' = set_video_kbps s (video_kbps s')) /\
  (vidsource (init s) <> "file" ->
   video_bitrate s = Raise UnboundLocalError).
Proof.
  intros Ht Hres. unfold video_bitrate, bitrate_height.
  rewrite Ht, Hres. split.
  - intros ->. simpl. destruct (low_fps s); eexists; repeat split.
  - intros Hsrc. apply String.eqb_neq in Hsrc. rewrite Hsrc. reflexivity.
Qed.

Lemma video_bitrate_unknown_resolution_witness :
  (exists s',
     video_bitrate Variant.unprobed = Ok s' /\
     video_kbps s' = Some 1800 /\
     s' = set_video_kbps Variant.unprobed (video_kbps s')) /\
  video_bitrate Sample.blank = Raise UnboundLocalError.
Proof.
  split.
  - apply (proj1 (video_bitrate_unknown_resolution Variant.unprobed
                    eq_refl eq_refl)).
    reflexivity.
  - apply (proj2 (video_bitrate_unknown_resolution Sample.blank
                    eq_refl eq_refl)).
    discriminate.
Defined.

(** A height at or below the lowest key, zero and negative ones included,
    gets the lowest tier: the run stores 300 in [video_kbps] for heights
    up to 240 on the low-fps table, and 2250 for heights up to 720 on the
    high-fps table. *)
Theorem video_bitrate_lowest_tier (s : Stream) (x : Z) :
  truthy_int (video_kbps s) = false ->
  bitrate_height s = Ok (Some x) ->
  (low_fps s = true -> x <= 240 ->
   exists s', video_bitrate s = Ok s' /\ video_kbps s' = Some 300 /\
              s' = set_video_kbps s (video_kbps s')) /\
  (low_fps s = false -> x <= 720 ->
   exists s', video_bitrate s = Ok s' /\ video_kbps s' = Some 2250 /\
              s' = set_video_kbps s (video_kbps s')).
Proof.
  intros Ht Hx. rewrite (video_bitrate_lookup s x Ht Hx).
  unfold selected_table, first_ge.
  split; intros -> Hle; simpl; apply Z.leb_le in Hle; rewrite Hle;
    eexists; repeat split.
Qed.

Lemma video_bitrate_lowest_tier_witness :
  (exists s', video_bitrate (Variant.tiny "camera") = Ok s' /\
              video_kbps s' = Some 300 /\
              s' = set_video_kbps (Variant.tiny "camera") (video_kbps s')) /\
  (exists s', video_bitrate (Variant.tiny "screen") = Ok s' /\
              video_kbps s' = Some 2250 /\
              s' = set_video_kbps (Variant.tiny "screen") (video_kbps s')).
Proof.
  split.
  - apply (proj1 (video_bitrate_lowest_tier (Variant.tiny "camera") 240
                    eq_refl eq_refl));
      [reflexivity | lia].
  - apply (proj2 (video_bitrate_lowest_tier (Variant.tiny "screen") 480
                    eq_refl eq_refl));
      [reflexivity | lia].
Defined.

(** ** Order in the tables *)

Lemma first_ge_monotone (BR : list (Z * Z)) :
  StronglySorted Z.le (values BR) ->
  forall x y b1 b2,
    x <= y -> first_ge BR x = Some b1 -> first_ge BR y = Some b2 -> b1 <= b2.
Proof.
  unfold values. induction BR as [|[k b] t IH]; intros Hs x y b1 b2 Hxy H1 H2.
  - discriminate H1.
  - simpl in Hs. inversion Hs as [|? ? Hs' Hall]; subst.
    unfold first_ge in H1, H2. simpl in H1, H2.
    destruct (Z.leb_spec x k) as [Hx|Hx]; simpl in H1.
    + inversion H1; subst b1.
      destruct (Z.leb_spec y k) as [Hy|Hy]; simpl in H2.
      * inversion H2. lia.
      * rewrite Forall_forall in Hall. apply Hall.
        apply (first_ge_In t y b2 H2).
    + destruct (Z.leb_spec y k) as [Hy|Hy]; [lia|].
      apply (IH Hs' x y b1 b2 Hxy H1 H2).
Qed.

Lemma selected_values_sorted (s : Stream) :
  StronglySorted Z.le (values (selected_table s)).
Proof.
  unfold selected_table. destruct (low_fps s); simpl;
    repeat constructor; lia.
Qed.

(** What a successful run without override stores. *)
Lemma video_bitrate_stored (s s' : Stream) (x : Z) :
  truthy_int (video_kbps s) = false ->
  bitrate_height s = Ok (Some x) ->
  video_bitrate s = Ok s' ->
  exists b, first_ge (selected_table s) x = Some b /\ video_kbps s' = Some b.
Proof.
  intros Ht Hx Hs'. rewrite (video_bitrate_lookup s x Ht Hx) in Hs'.
  destruct (first_ge (selected_table s) x) as [b|]; [|discriminate Hs'].
  inversion Hs'. exists b. split; reflexivity.
Qed.

(** Among plans of the same frame-rate class, a taller picture never gets
    a lower bitrate. *)
Theorem video_bitrate_monotone (s1 s2 s1' s2' : Stream) (x y : Z) :
  truthy_int (video_kbps s1) = false ->
  truthy_int (video_kbps s2) = false ->
  bitrate_height s1 = Ok (Some x) ->
  bitrate_height s2 = Ok (Some y) ->
  low_fps s1 = low_fps s2 ->
  x <= y ->
  video_bitrate s1 = Ok s1' ->
  video_bitrate s2 = Ok s2' ->
  exists b1 b2,
    video_kbps s1' = Some b1 /\ video_kbps s2' = Some b2 /\ b1 <= b2.
Proof.
  intros Ht1 Ht2 Hx Hy Hfps Hxy H1 H2.
  destruct (video_bitrate_stored s1 s1' x Ht1 Hx H1) as (b1 & Hb1 & Hk1).
  destruct (video_bitrate_stored s2 s2' y Ht2 Hy H2) as (b2 & Hb2 & Hk2).
  exists b1, b2. split; [exact Hk1|]. split; [exact Hk2|].
  unfold selected_table in Hb2. rewrite <- Hfps in Hb2.
  fold (selected_table s1) in Hb2.
  apply (first_ge_monotone _ (selected_values_sorted s1) x y); assumption.
Qed.

Lemma video_bitrate_monotone_witness :
  exists b1 b2,
    video_kbps (set_video_kbps Sample.camera_sd (Some 800)) = Some b1 /\
    video_kbps (set_video_kbps Sample.camera (Some 1800)) = Some b2 /\
    b1 <= b2.
Proof.
  apply (video_bitrate_monotone Sample.camera_sd Sample.camera _ _ 500 720);
    try reflexivity.
  lia.
Defined.

Lemma tables_compare (x b30 b60 : Z) :
  first_ge BR30 x = Some b30 -> first_ge BR60 x = Some b60 -> b30 < b60.
Proof.
  unfold first_ge, BR30, BR60. simpl.
  repeat match goal with
         | |- context [(x <=? ?k)%Z] => destruct (Z.leb_spec x k)
         end;
    simpl; intros H30 H60; inversion H30; inversion H60; lia.
Qed.

(** At the same height a frame rate above 30 always gets a higher bitrate
    than a frame rate of at most 30. *)
Theorem video_bitrate_high_fps_higher (s1 s2 s1' s2' : Stream) (x : Z) :
  truthy_int (video_kbps s1) = false ->
  truthy_int (video_kbps s2) = false ->
  bitrate_height s1 = Ok (Some x) ->
  bitrate_height s2 = Ok (Some x) ->
  low_fps s1 = true ->
  low_fps s2 = false ->
  video_bitrate s1 = Ok s1' ->
  video_bitrate s2 = Ok s2' ->
  exists b1 b2,
    video_kbps s1' = Some b1 /\ video_kbps s2' = Some b2 /\ b1 < b2.
Proof.
  intros Ht1 Ht2 Hx1 Hx2 Hlow Hhigh H1 H2.
  destruct (video_bitrate_stored s1 s1' x Ht1 Hx1 H1) as (b1 & Hb1 & Hk1).
  destruct (video_bitrate_stored s2 s2' x Ht2 Hx2 H2) as (b2 & Hb2 & Hk2).
  exists b1, b2. split; [exact Hk1|]. split; [exact Hk2|].
  unfold selected_table in Hb1, Hb2. rewrite Hlow in Hb1. rewrite Hhigh in Hb2.
  apply (tables_compare x); assumption.
Qed.

Lemma video_bitrate_high_fps_higher_witness :
  exists b1 b2,
    video_kbps (set_video_kbps Sample.file (Some 3000)) = Some b1 /\
    video_kbps (set_video_kbps Sample.screen (Some 4500)) = Some b2 /\
    b1 < b2.
Proof.
  apply (video_bitrate_high_fps_higher Sample.file Sample.screen _ _ 1080);
    reflexivity.
Defined.

(** ** What [video_bitrate] leaves alone *)

Lemma set_video_kbps_same (s : Stream) : set_video_kbps s (video_kbps s) = s.
Proof. destruct s. reflexivity. Qed.

(** The step writes [video_kbps] and nothing else, so the fragments that
    do not read the bitrate (audio and the three video inputs) come out the
    same before and after it. *)
Theorem video_bitrate_frame (w : World) (s s' : Stream) :
  video_bitrate s = Ok s' ->
  s' = set_video_kbps s (video_kbps s') /\
  audiostream s' = audiostream s /\
  audiocomp s' = audiocomp s /\
  screengrab w s' = screengrab w s /\
  webcam w s' = webcam w s /\
  filein w s' = filein w s.
Proof.
  intros H.
  assert (E : s' = set_video_kbps s (video_kbps s')).
  { destruct (video_bitrate_result s s' H) as [[_ ->]|[_ (v & -> & _)]].
    - symmetry. apply set_video_kbps_same.
    - reflexivity. }
  split; [exact E|]. rewrite E. repeat split.
Qed.

Lemma video_bitrate_frame_witness :
  audiostream (set_video_kbps Sample.camera (Some 1800))
  = audiostream Sample.camera /\
  webcam Sample.world (set_video_kbps Sample.camera (Some 1800))
  = webcam Sample.world Sample.camera.
Proof.
  destruct (video_bitrate_frame Sample.world Sample.camera
              (set_video_kbps Sample.camera (Some 1800)) eq_refl)
    as (_ & Ha & _ & _ & Hw & _).
  split; [exact Ha | exact Hw].
Defined.

(** ** Plans built by [osparam] *)

Ltac bind_inv H :=
  let x := fresh "x" in
  let E := fresh "E" in
  apply bind_Ok_inv in H; destruct H as (x & E & H).

Lemma py_assert_Ok (c : bool) (u : unit) : py_assert c = Ok u -> c = true.
Proof. destruct c; [reflexivity | discriminate]. Qed.

Lemma osparam_source_inv (w : World) (C : ConfigParser) (a : StreamInit)
  (probe : string) (r : option (list PyVal)) (f : option PyNum)
  (o : option (list string)) :
  osparam_source w C a probe = Ok (r, f, o) ->
  (vidsource a = "camera" /\
   (exists t, cfg_get C (site a) "webcam_res" = Ok t /\
              r = Some (map PyStr (str_split "x" t))) /\
   (exists n, f = Some (NInt n)) /\ o = None) \/
  (vidsource a = "screen" /\
   (exists t, cfg_get C (site a) "screencap_res" = Ok t /\
              r = Some (map PyStr (str_split "x" t))) /\
   (exists n, f = Some (NInt n)) /\
   (exists t, cfg_get C (site a) "screencap_origin" = Ok t /\
              o = Some (str_split "," t))) \/
  (vidsource a = "file" /\
   get_resolution w (infn a) probe = Ok r /\
   get_framerate w (infn a) probe = Ok f /\ o = None).
Proof.
  unfold osparam_source. intros H.
  destruct (String.eqb_spec (vidsource a) "camera") as [Hc|_].
  { left. bind_inv H. bind_inv H. inversion H; subst.
    split; [exact Hc|]. split; [exists x; auto|]. split; [exists x0|]; auto. }
  destruct (String.eqb_spec (vidsource a) "screen") as [Hs|_].
  { right. left. bind_inv H. bind_inv H. bind_inv H. inversion H; subst.
    split; [exact Hs|]. split; [exists x; auto|].
    split; [exists x0; auto|]. exists x1. auto. }
  destruct (String.eqb_spec (vidsource a) "file") as [Hf|_]; [|discriminate H].
  right. right. bind_inv H. bind_inv H. inversion H; subst. auto.
Qed.

(** What holds of every plan [osparam] returns. *)
Lemma osparam_Ok_inv (w : World) (a : StreamInit) (s : Stream) :
  osparam w a = Ok s ->
  init s = a /\
  is_file w (ini a) = true /\
  cfg_contains (read_config w (ini a)) (site a) = true /\
  getexe w (configured_exe w (read_config w (ini a)))
  = Ok (exe s, probeexe s) /\
  osparam_source w (read_config w (ini a)) a (probeexe s)
  = Ok (res s, fps s, origin s) /\
  cfg_getint_fallback (read_config w (ini a)) (site a) "video_kbps"
  = Ok (video_kbps s) /\
  (exists b, cfg_get (read_config w (ini a)) (site a) "audio_bps" = Ok b /\
             audio_bps s = Some b) /\
  acap s = cfg_get_fallback (read_config w (ini a)) (platform w) "acap" /\
  audiochan s
  = cfg_get_fallback (read_config w (ini a)) (platform w) "audiochan" /\
  osparam_key w (read_config w (ini a)) a = Ok (key s).
Proof.
  unfold osparam. intros H.
  bind_inv H. apply py_assert_Ok in E.
  bind_inv H. apply py_assert_Ok in E0.
  bind_inv H. destruct x1 as [e p].
  bind_inv H. destruct x1 as [[r f] o].
  do 9 bind_inv H.
  inversion H; subst; simpl.
  repeat split; auto. exists x7. auto.
Qed.

Lemma osparam_built_facts (w : World) (a : StreamInit) (s : Stream) :
  osparam w a = Ok s ->
  init s = a /\
  (vidsource a = "camera" \/ vidsource a = "screen" \/ vidsource a = "file") /\
  (origin s <> None <-> vidsource a = "screen") /\
  (res s = None -> vidsource a = "file") /\
  (fps s = None -> vidsource a = "file") /\
  (exists b, audio_bps s = Some b).
Proof.
  intros H.
  destruct (osparam_Ok_inv w a s H)
    as (Hi & _ & _ & _ & Hsrc & _ & (b & _ & Hb) & _).
  split; [exact Hi|].
  apply osparam_source_inv in Hsrc.
  destruct Hsrc as [(Hk & (t & _ & Hr) & (n & Hf) & Ho)
                   |[(Hk & (t & _ & Hr) & (n & Hf) & (t' & _ & Ho))
                    |(Hk & _ & _ & Ho)]];
    rewrite Hk; (split; [tauto|]);
    (split; [rewrite Ho; split; intros H'; congruence|]);
    (split; [try (rewrite Hr; discriminate); auto|]);
    (split; [try (rewrite Hf; discriminate); auto|]);
    exists b; exact Hb.
Qed.

(** [osparam] returns a plan only for one of the three sources; [origin]
    exists exactly on screen plans, a missing resolution or frame rate
    only on file plans, and the audio bitrate is always a string. *)
Theorem osparam_built (w : World) (a : StreamInit) (s : Stream) :
  osparam w a = Ok s ->
  init s = a /\
  (vidsource a = "camera" \/ vidsource a = "screen" \/ vidsource a = "file") /\
  (origin s <> None <-> vidsource a = "screen") /\
  (res s = None -> vidsource a = "file") /\
  (fps s = None -> vidsource a = "file") /\
  (exists b, audio_bps s = Some b).
Proof. apply osparam_built_facts. Qed.

Lemma osparam_built_witness :
  origin Sample.screen <> None /\ origin Sample.camera = None.
Proof.
  destruct sample_plans_built as (Hc & Hs & _).
  split.
  - apply (proj2 (proj1 (proj2 (proj2 (osparam_built _ _ _ Hs))))).
    reflexivity.
  - pose proof (proj1 (proj1 (proj2 (proj2 (osparam_built _ _ _ Hc)))))
      as Ho.
    destruct (origin Sample.camera) eqn:E; [|reflexivity].
    exfalso. assert (Hne : Some l <> None) by discriminate.
    specialize (Ho Hne). discriminate Ho.
Defined.



(** On a plan built by [osparam] the height is always bound: the step can
    only raise [IndexError] or [ValueError], never [UnboundLocalError]. *)
Theorem video_bitrate_built (w : World) (a : StreamInit) (s : Stream)
  (e : exn) :
  osparam w a = Ok s ->
  video_bitrate s = Raise e ->
  e = IndexError \/ e = ValueError.
Proof.
  intros Hos Hv.
  destruct (osparam_built_facts w a s Hos) as (Hi & _ & _ & Hres & _).
  destruct (video_bitrate_raises_cases s e Hv)
    as (_ & [(_ & Hnone & Hsrc)|[(E & _)|[(E & _)|(E & _)]]]); auto.
  exfalso. apply Hsrc. rewrite Hi. apply Hres. exact Hnone.
Qed.

Lemma video_bitrate_built_witness :
  video_bitrate Sample.camera_oversize = Raise IndexError /\
  (IndexError = IndexError \/ IndexError = ValueError).
Proof.
  destruct sample_plans_built as (_ & _ & _ & _ & _ & Hover & _).
  split; [reflexivity|].
  apply (video_bitrate_built _ _ _ _ Hover). reflexivity.
Defined.

(** ** Splitting and joining *)

Lemma split_chars_length (sep : ascii) :
  forall (l cur : list ascii),
    List.length (split_chars sep cur l)
    = S (count_occ Ascii.ascii_dec l sep).
Proof.
  induction l as [|c l IH]; intros cur; simpl; [reflexivity|].
  destruct (Ascii.eqb_spec c sep) as [->|Hne].
  - destruct (Ascii.ascii_dec sep sep); [|congruence].
    simpl. rewrite IH. reflexivity.
  - destruct (Ascii.ascii_dec c sep); [congruence|]. apply IH.
Qed.

(** [s.split(sep)] has a second part exactly when [sep] occurs in [s]. *)
Lemma str_split_second (sep : ascii) (s : string) :
  (exists p, getitem (str_split sep s) 1 = Ok p) <->
  In sep (list_ascii_of_string s).
Proof.
  unfold str_split, getitem.
  pose proof (split_chars_length sep (list_ascii_of_string s) []) as Hlen.
  rewrite (count_occ_In Ascii.ascii_dec). split.
  - intros [p Hp].
    destruct (nth_error _ 1) eqn:E; [|discriminate Hp].
    assert (1 < List.length (split_chars sep [] (list_ascii_of_string s)))%nat
      by (apply nth_error_Some; congruence).
    lia.
  - intros Hc.
    destruct (nth_error (split_chars sep [] (list_ascii_of_string s)) 1)
      as [p|] eqn:E; [exists p; reflexivity|].
    apply nth_error_None in E. lia.
Qed.

Lemma str_split_first (sep : ascii) (s : string) :
  exists p, getitem (str_split sep s) 0 = Ok p.
Proof.
  unfold str_split, getitem.
  destruct (split_chars sep [] (list_ascii_of_string s)) as [|p l] eqn:E.
  - pose proof (split_chars_length sep (list_ascii_of_string s) []) as Hlen.
    rewrite E in Hlen. discriminate Hlen.
  - exists p. reflexivity.
Qed.

Lemma string_of_list_ascii_app_cons (l1 l2 : list ascii) :
  string_of_list_ascii (l1 ++ l2)
  = (string_of_list_ascii l1 ++ string_of_list_ascii l2)%string.
Proof.
  induction l1 as [|c l1 IH]; simpl; [reflexivity|]. rewrite IH. reflexivity.
Qed.

Lemma str_join_split_chars (sep : ascii) :
  forall (l cur : list ascii),
    str_join (String sep "") (split_chars sep cur l)
    = string_of_list_ascii (rev cur ++ l).
Proof.
  induction l as [|c l IH]; intros cur.
  - simpl. rewrite app_nil_r. reflexivity.
  - simpl split_chars. destruct (Ascii.eqb_spec c sep) as [->|Hne].
    + specialize (IH []).
      destruct (split_chars sep [] l) as [|p ps] eqn:E.
      * pose proof (split_chars_length sep l []) as Hlen.
        rewrite E in Hlen. discriminate Hlen.
      * change (str_join (String sep "")
                  (string_of_list_ascii (rev cur) :: p :: ps))
          with (string_of_list_ascii (rev cur) ++ String sep "" ++
                str_join (String sep "") (p :: ps))%string.
        change (rev [] ++ l) with l in IH.
        rewrite IH, string_of_list_ascii_app_cons. reflexivity.
    + rewrite IH. simpl rev. rewrite <- app_assoc. reflexivity.
Qed.

(** Joining the parts of a split with the separator gives the string
    back. *)
Lemma str_join_split (sep : ascii) (s : string) :
  str_join (String sep "") (str_split sep s) = s.
Proof.
  unfold str_split. rewrite str_join_split_chars. simpl.
  apply string_of_list_ascii_of_string.
Qed.

(** ** Screen capture on built plans *)

Lemma variant_plans_built :
  Variant.plan (Variant.on "linux") "youtube" "screen" None
  = Ok (Variant.screen_on "linux") /\
  Variant.plan (Variant.on "win32") "youtube" "screen" None
  = Ok (Variant.screen_on "win32") /\
  Variant.plan (Variant.on "darwin") "youtube" "screen" None
  = Ok (Variant.screen_on "darwin") /\
  Variant.plan (Variant.on "freebsd") "youtube" "screen" None
  = Ok (Variant.screen_on "freebsd") /\
  Variant.plan (Variant.on "linux") "corner" "screen" None
  = Ok (Variant.corner_on "linux") /\
  Variant.plan (Variant.on "darwin") "corner" "screen" None
  = Ok (Variant.corner_on "darwin") /\
  Variant.plan Variant.noprobe "youtube" "file" (Some "talk.mp4")
  = Ok Variant.unprobed.
Proof. repeat split; vm_compute; reflexivity. Qed.

Lemma osparam_screen_inv (w : World) (a : StreamInit) (s : Stream) :
  osparam w a = Ok s ->
  vidsource a = "screen" ->
  exists size orig n,
    cfg_get (read_config w (ini a)) (site a) "screencap_res" = Ok size /\
    cfg_get (read_config w (ini a)) (site a) "screencap_origin" = Ok orig /\
    res s = Some (map PyStr (str_split "x" size)) /\
    fps s = Some (NInt n) /\
    origin s = Some (str_split "," orig).
Proof.
  intros Hos Hk.
  destruct (osparam_Ok_inv w a s Hos) as (_ & _ & _ & _ & Hsrc & _).
  apply osparam_source_inv in Hsrc.
  destruct Hsrc as [(Hk' & _)
                   |[(_ & (size & Hsize & Hr) & (n & Hf) & (orig & Horig & Ho))
                    |(Hk' & _)]];
    try (rewrite Hk in Hk'; discriminate Hk').
  exists size, orig, n. auto.
Qed.

Lemma map_py_str_PyStr (l : list string) : map py_str (map PyStr l) = l.
Proof. induction l as [|t l IH]; simpl; [|rewrite IH]; reflexivity. Qed.

(** The flags every screen capture starts with. *)
Lemma screengrab_prefix (w : World) (s : Stream) (out : list string) :
  screengrab w s = Ok out ->
  exists post,
    out = ["-f"; vcap s; "-r"; str_opt_num w (fps s)] ++
          match res s with
          | Some r => ["-s"; str_join "x" (map py_str r)]
          | None => []
          end ++ post.
Proof.
  unfold screengrab. intros H.
  assert (Hshape : forall post,
    (match res s with
     | Some r => ["-f"; vcap s; "-r"; str_opt_num w (fps s)] ++
                 ["-s"; str_join "x" (map py_str r)]
     | None => ["-f"; vcap s; "-r"; str_opt_num w (fps s)]
     end) ++ post
    = ["-f"; vcap s; "-r"; str_opt_num w (fps s)] ++
      match res s with
      | Some r => ["-s"; str_join "x" (map py_str r)]
      | None => []
      end ++ post).
  { intros post. destruct (res s); reflexivity. }
  destruct (platform w =? "linux")%string.
  { destruct (origin s) as [o|]; [|discriminate H].
    bind_inv H. bind_inv H. inversion H. eexists. apply Hshape. }
  destruct (platform w =? "win32")%string.
  { destruct (origin s) as [o|]; [|discriminate H].
    bind_inv H. bind_inv H. inversion H. eexists. apply Hshape. }
  destruct (platform w =? "darwin")%string.
  { inversion H. eexists. apply Hshape. }
  inversion H. exists []. rewrite <- (Hshape []), app_nil_r. reflexivity.
Qed.

(** The size flag of a built screen plan is the configured
    [screencap_res], character for character: splitting at [x] and
    joining with [x] undo each other. *)
Theorem screengrab_size_verbatim (w : World) (a : StreamInit) (s : Stream)
  (out : list string) :
  osparam w a = Ok s ->
  vidsource a = "screen" ->
  screengrab w s = Ok out ->
  exists size n post,
    cfg_get (read_config w (ini a)) (site a) "screencap_res" = Ok size /\
    cfg_getint (read_config w (ini a)) (site a) "screencap_fps" = Ok n /\
    out = ["-f"; vcap s; "-r"; str_int n; "-s"; size] ++ post.
Proof.
  intros Hos Hk Hout.
  destruct (osparam_Ok_inv w a s Hos) as (_ & _ & _ & _ & Hsrc & _).
  unfold osparam_source in Hsrc. rewrite Hk in Hsrc. simpl in Hsrc.
  bind_inv Hsrc. bind_inv Hsrc. bind_inv Hsrc. inversion Hsrc as [[Hr Hf Ho]].
  destruct (screengrab_prefix w s out Hout) as (post & ->).
  exists x, x0, post. split; [exact E|]. split; [exact E0|].
  rewrite <- Hr, <- Hf, map_py_str_PyStr.
  change "x"%string with (String "x"%char "").
  rewrite str_join_split. reflexivity.
Qed.

Lemma screengrab_size_verbatim_witness :
  exists size n post,
    cfg_get Variant.config "youtube" "screencap_res" = Ok size /\
    cfg_getint Variant.config "youtube" "screencap_fps" = Ok n /\
    ["-f"; "gdigrab"; "-r"; "60"; "-s"; "1920x1080";
     "-offset_x"; "100"; "-offset_y"; "200"; "-i"; "desktop"]
    = ["-f"; vcap (Variant.screen_on "win32"); "-r"; str_int n; "-s"; size]
      ++ post.
Proof.
  destruct variant_plans_built as (_ & Hw & _).
  apply (screengrab_size_verbatim (Variant.on "win32") _ _ _ Hw);
    reflexivity.
Defined.

(** On Linux and Windows the capture origin needs both coordinates: a
    built screen plan whose [screencap_origin] has no comma makes
    [screengrab] raise [IndexError], and one with a comma never fails. *)
Theorem screengrab_origin_comma (w : World) (a : StreamInit) (s : Stream) :
  osparam w a = Ok s ->
  vidsource a = "screen" ->
  platform w = "linux" \/ platform w = "win32" ->
  exists orig,
    cfg_get (read_config w (ini a)) (site a) "screencap_origin" = Ok orig /\
    (~ In ","%char (list_ascii_of_string orig) ->
     screengrab w s = Raise IndexError) /\
    (In ","%char (list_ascii_of_string orig) ->
     exists out, screengrab w s = Ok out).
Proof.
  intros Hos Hk Hp.
  destruct (osparam_screen_inv w a s Hos Hk)
    as (size & orig & n & _ & Horig & _ & _ & Ho).
  exists orig. split; [exact Horig|].
  destruct (str_split_first "," orig) as [o0 H0].
  unfold screengrab. rewrite Ho, H0.
  split.
  - intros Hno.
    assert (H1 : getitem (str_split "," orig) 1 = Raise IndexError).
    { unfold getitem. destruct (nth_error (str_split "," orig) 1) eqn:E;
        [|reflexivity].
      exfalso. apply Hno. apply str_split_second. unfold getitem.
      rewrite E. eexists. reflexivity. }
    rewrite H1.
    destruct Hp as [-> | ->]; reflexivity.
  - intros Hyes. apply str_split_second in Hyes. destruct Hyes as [o1 H1].
    rewrite H1. destruct Hp as [-> | ->]; simpl; eexists; reflexivity.
Qed.

Lemma screengrab_origin_comma_witness :
  screengrab (Variant.on "linux") (Variant.corner_on "linux")
  = Raise IndexError /\
  exists out,
    screengrab (Variant.on "linux") (Variant.screen_on "linux") = Ok out.
Proof.
  destruct variant_plans_built as (Hl & _ & _ & _ & Hc & _).
  split.
  - destruct (screengrab_origin_comma (Variant.on "linux") _ _ Hc eq_refl
                (or_introl eq_refl)) as (orig & Ho & Hno & _).
    apply Hno. vm_compute in Ho. inversion Ho. subst orig.
    simpl. intros [H|[]]. discriminate H.
  - destruct (screengrab_origin_comma (Variant.on "linux") _ _ Hl eq_refl
                (or_introl eq_refl)) as (orig & Ho & _ & Hyes).
    apply Hyes. vm_compute in Ho. inversion Ho. subst orig.
    simpl. tauto.
Defined.

(** With exactly one comma the Linux input spec carries the configured
    origin unchanged: [:0.0+] followed by [screencap_origin]. *)
Theorem screengrab_linux_origin (w : World) (a : StreamInit) (s : Stream) :
  osparam w a = Ok s ->
  vidsource a = "screen" ->
  platform w = "linux" ->
  exists orig,
    cfg_get (read_config w (ini a)) (site a) "screencap_origin" = Ok orig /\
    (count_occ Ascii.ascii_dec (list_ascii_of_string orig) ","%char = 1%nat ->
     exists pre,
       screengrab w s = Ok (pre ++ ["-i"; (":0.0+" ++ orig)%string])).
Proof.
  intros Hos Hk Hp.
  destruct (osparam_screen_inv w a s Hos Hk)
    as (size & orig & n & _ & Horig & _ & _ & Ho).
  exists orig. split; [exact Horig|]. intros Hone.
  pose proof (split_chars_length "," (list_ascii_of_string orig) []) as Hlen.
  rewrite Hone in Hlen. fold (str_split "," orig) in Hlen.
  pose proof (str_join_split "," orig) as Hjoin.
  destruct (str_split "," orig) as [|o0 [|o1 [|o2 l]]] eqn:E;
    try discriminate Hlen.
  simpl in Hjoin.
  unfold screengrab. rewrite Ho, Hp. simpl.
  eexists. rewrite <- Hjoin. reflexivity.
Qed.

Lemma screengrab_linux_origin_witness :
  exists pre,
    screengrab (Variant.on "linux") (Variant.screen_on "linux")
    = Ok (pre ++ ["-i"; ":0.0+100,200"]).
Proof.
  destruct variant_plans_built as (Hl & _).
  destruct (screengrab_linux_origin (Variant.on "linux") _ _ Hl
              eq_refl eq_refl) as (orig & Ho & H).
  vm_compute in Ho. inversion Ho. subst orig.
  apply H. reflexivity.
Defined.

(** Off Linux and Windows [screengrab] never raises and never reads the
    origin: macOS gets the fixed input [0:0], and any other platform gets
    no input flag at all, only format, rate and size. *)
Theorem screengrab_elsewhere (w : World) (s : Stream) :
  platform w <> "linux" ->
  platform w <> "win32" ->
  (platform w = "darwin" ->
   exists pre, screengrab w s = Ok (pre ++ ["-i"; "0:0"])) /\
  (platform w <> "darwin" ->
   screengrab w s =
   Ok (["-f"; vcap s; "-r"; str_opt_num w (fps s)] ++
       match res s with
       | Some r => ["-s"; str_join "x" (map py_str r)]
       | None => []
       end)).
Proof.
  intros Hl Hw. unfold screengrab.
  apply String.eqb_neq in Hl, Hw. rewrite Hl, Hw. split.
  - intros ->. simpl. eexists. reflexivity.
  - intros Hd. apply String.eqb_neq in Hd. rewrite Hd.
    destruct (res s); reflexivity.
Qed.

Lemma screengrab_elsewhere_witness :
  (exists pre,
     screengrab (Variant.on "darwin") (Variant.corner_on "darwin")
     = Ok (pre ++ ["-i"; "0:0"])) /\
  screengrab (Variant.on "freebsd") (Variant.screen_on "freebsd")
  = Ok ["-f"; "x11grab"; "-r"; "60"; "-s"; "1920x1080"].
Proof.
  split.
  - apply (proj1 (screengrab_elsewhere (Variant.on "darwin")
                    (Variant.corner_on "darwin")
                    ltac:(discriminate) ltac:(discriminate))).
    reflexivity.
  - apply (proj2 (screengrab_elsewhere (Variant.on "freebsd")
                    (Variant.screen_on "freebsd")
                    ltac:(discriminate) ltac:(discriminate))).
    discriminate.
Defined.

(** ** File input *)

Lemma filein_raises (w : World) (s : Stream) (e : exn) :
  filein w s = Raise e ->
  (e = AssertionError /\ infn (init s) = None) \/
  (exists p, infn (init s) = Some p /\ expanduser w p = Raise e).
Proof.
  unfold filein. destruct (infn (init s)) as [p|]; intros H.
  - right. exists p. split; [reflexivity|].
    destruct (expanduser w p) as [fn|e']; simpl in H; [discriminate H|].
    inversion H. reflexivity.
  - left. inversion H. auto.
Qed.

(** [filein] fails in two ways only: [AssertionError] on a plan without
    input file, and what [expanduser] raises on the path of the input file
    ([RuntimeError] for an unknown home directory). With a still image and
    a path that expands, the fragment opens with [-loop] and lists the
    image as the first input and the media file as the second and last
    one. *)
Theorem filein_outcome (w : World) (s : Stream) :
  (forall e, filein w s = Raise e <->
             (e = AssertionError /\ infn (init s) = None) \/
             (exists p, infn (init s) = Some p /\
                        expanduser w p = Raise e)) /\
  (forall img p fn,
     image (init s) = Some img -> infn (init s) = Some p ->
     expanduser w p = Ok fn ->
     exists flags,
       filein w s = Ok (flags ++ ["-i"; img; "-i"; fn]) /\
       (flags = ["-loop"; "1"] \/
        flags = ["-loop"; "1"; "-stream_loop"; "-1"])).
Proof.
  split.
  - intros e. split; [apply filein_raises|].
    unfold filein. intros [[-> Hnone]|(p & Hp & He)].
    + rewrite Hnone. reflexivity.
    + rewrite Hp, He. reflexivity.
  - intros img p fn Hi Hp Hfn. unfold filein. rewrite Hp, Hfn, Hi. simpl.
    destruct (loop (init s)); simpl.
    + exists ["-loop"; "1"; "-stream_loop"; "-1"]. auto.
    + exists ["-loop"; "1"]. auto.
Qed.

Lemma filein_outcome_witness :
  filein Sample.world Sample.blank = Raise AssertionError /\
  filein Sample.world Sample.file_nohome = Raise RuntimeError /\
  exists flags,
    filein Sample.world Sample.still
    = Ok (flags ++ ["-i"; "cover.png"; "-i"; "talk.mp3"]) /\
    (flags = ["-loop"; "1"] \/ flags = ["-loop"; "1"; "-stream_loop"; "-1"]).
Proof.
  split; [|split].
  - apply (proj1 (filein_outcome Sample.world Sample.blank)).
    left. split; reflexivity.
  - apply (proj1 (filein_outcome Sample.world Sample.file_nohome)).
    right. exists "~nosuchuser/talk.mp4". split; reflexivity.
  - apply (proj2 (filein_outcome Sample.world Sample.still)
             "cover.png" "talk.mp3" "talk.mp3"); reflexivity.
Defined.

(** ** [videostream] on built plans *)

Lemma bind_Raise_inv {A B : Type} (m : result A) (k : A -> result B)
  (e : exn) :
  bind m k = Raise e -> m = Raise e \/ exists a, m = Ok a /\ k a = Raise e.
Proof.
  destruct m as [a|e']; simpl; intros H.
  - right. exists a. auto.
  - left. inversion H. reflexivity.
Qed.

Lemma screengrab_raises (w : World) (s : Stream) (e : exn) :
  screengrab w s = Raise e ->
  (platform w = "linux" \/ platform w = "win32") /\
  (e = AttributeError /\ origin s = None \/
   e = IndexError /\ exists o, origin s = Some o /\ (List.length o < 2)%nat).
Proof.
  unfold screengrab. intros H.
  assert (Hget : forall (o : list string) (k : string -> string -> list string),
             (o0 <- getitem o 0 ;; o1 <- getitem o 1 ;; Ok (k o0 o1))
             = Raise e ->
             e = IndexError /\ (List.length o < 2)%nat).
  { intros o k Hk. destruct o as [|o0 [|o1 l]]; simpl in *;
      try discriminate Hk; inversion Hk; split; auto; lia. }
  destruct (String.eqb_spec (platform w) "linux") as [Hl|_].
  { split; [left; exact Hl|].
    destruct (origin s) as [o|].
    - right. destruct (Hget o _ H) as [-> Hlen]. split; [reflexivity|].
      exists o. auto.
    - left. inversion H. auto. }
  destruct (String.eqb_spec (platform w) "win32") as [Hw|_].
  { split; [right; exact Hw|].
    destruct (origin s) as [o|].
    - right. destruct (Hget o _ H) as [-> Hlen]. split; [reflexivity|].
      exists o. auto.
    - left. inversion H. auto. }
  destruct (platform w =? "darwin")%string; discriminate H.
Qed.

Lemma osparam_int_fps (w : World) (a : StreamInit) (s : Stream) :
  osparam w a = Ok s ->
  vidsource a <> "file" ->
  exists n, fps s = Some (NInt n).
Proof.
  intros Hos Hk.
  destruct (osparam_Ok_inv w a s Hos) as (_ & _ & _ & _ & Hsrc & _).
  apply osparam_source_inv in Hsrc.
  destruct Hsrc as [(_ & _ & Hf & _)|[(_ & _ & Hf & _)|(Hfile & _)]];
    [exact Hf | exact Hf | contradiction].
Qed.

(** On a plan built by [osparam], [videostream] can fail in four ways
    only: a file plan without input file ([AssertionError]); a file plan
    whose input path does not expand (the error of [expanduser]); a screen
    plan on Linux or Windows whose origin lacks a coordinate
    ([IndexError]); and a motion-video file plan whose frame rate is a
    float, or unset and taken as [30.], when the product with
    [keyframe_sec] raises ([OverflowError]). A camera plan never fails. *)
Theorem videostream_built_raises (w : World) (a : StreamInit) (s : Stream)
  (e : exn) :
  osparam w a = Ok s ->
  videostream w s = Raise e ->
  (e = AssertionError /\ vidsource a = "file" /\ infn a = None) \/
  (vidsource a = "file" /\
   exists p, infn a = Some p /\ expanduser w p = Raise e) \/
  (e = IndexError /\ vidsource a = "screen" /\
   (platform w = "linux" \/ platform w = "win32")) \/
  (vidsource a = "file" /\ image a = None /\
   exists q,
     (fps s = Some (NFloat q) \/ fps s = None /\ q = inject_Z 30) /\
     float_mul_str w (keyframe_sec s) q = Raise e).
Proof.
  intros Hos Hv.
  destruct (osparam_built_facts w a s Hos) as (Hi & Hk & Ho & _).
  unfold videostream in Hv. rewrite Hi in Hv.
  apply bind_Raise_inv in Hv. destruct Hv as [Hv|(vid1 & _ & Hv)].
  - destruct Hk as [Hk|[Hk|Hk]]; rewrite Hk in Hv; simpl in Hv.
    + discriminate Hv.
    + right. right. left.
      destruct (screengrab_raises w s e Hv)
        as [Hp [(_ & Hnone)|(E & _)]].
      * exfalso. apply Ho in Hk. apply Hk. exact Hnone.
      * auto.
    + apply filein_raises in Hv. rewrite Hi in Hv.
      destruct Hv as [[-> Hnone]|Hexp]; [left; auto|].
      right. left. auto.
  - right. right. right.
    destruct (image a) as [img|] eqn:Himg; simpl in Hv; [discriminate Hv|].
    apply bind_Raise_inv in Hv. destruct Hv as [Hv|(g & _ & Hv)];
      [|discriminate Hv].
    destruct (String.eqb_spec (vidsource a) "file") as [Hf|Hnf].
    + split; [exact Hf|]. split; [reflexivity|].
      destruct (fps s) as [[n|q]|]; simpl in Hv.
      * discriminate Hv.
      * exists q. auto.
      * exists (inject_Z 30). auto.
    + destruct (osparam_int_fps w a s Hos Hnf) as [n Hn].
      rewrite Hn in Hv. discriminate Hv.
Qed.

Lemma videostream_built_raises_witness :
  videostream (Variant.on "linux") (Variant.corner_on "linux")
  = Raise IndexError /\
  vidsource (init (Variant.corner_on "linux")) = "screen" /\
  videostream Sample.world Sample.file_nohome = Raise RuntimeError /\
  exists p, infn (init Sample.file_nohome) = Some p /\
            expanduser Sample.world p = Raise RuntimeError.
Proof.
  destruct variant_plans_built as (_ & _ & _ & _ & Hc & _).
  assert (Hn : Sample.plan "youtube" "file" None true
                 (Some "~nosuchuser/talk.mp4") = Ok Sample.file_nohome)
    by (vm_compute; reflexivity).
  split; [reflexivity|]. split; [|split; [reflexivity|]].
  - destruct (videostream_built_raises (Variant.on "linux") _ _ IndexError Hc
                eq_refl)
      as [(E & _)|[(Hk & _)|[(_ & Hk & _)|(Hk & _)]]];
      [discriminate E | discriminate Hk | exact Hk | discriminate Hk].
  - destruct (videostream_built_raises Sample.world _ _ RuntimeError Hn
                eq_refl)
      as [(E & _)|[(_ & Hp)|[(E & _)|(_ & _ & q & _ & Hq)]]].
    + discriminate E.
    + exact Hp.
    + discriminate E.
    + exfalso. vm_compute in Hq. discriminate Hq.
Defined.

(** A still-image plan does not depend on the bitrate: whatever
    [video_kbps] holds, [videostream] and [buffer] return the same, so
    neither needs [video_bitrate] to have run. *)
Theorem still_image_ignores_bitrate (w : World) (s : Stream) (img : Path)
  (v : option Z) (server : string) :
  image (init s) = Some img ->
  videostream w (set_video_kbps s v) = videostream w s /\
  buffer (set_video_kbps s v) server = buffer s server /\
  exists out, buffer s server = Ok out.
Proof.
  intros Hi. split; [|split].
  - unfold videostream. simpl. rewrite Hi. simpl.
    change (screengrab w (set_video_kbps s v)) with (screengrab w s).
    change (filein w (set_video_kbps s v)) with (filein w s).
    change (webcam w (set_video_kbps s v)) with (webcam w s).
    reflexivity.
  - rewrite (buffer_still s server img Hi).
    apply (buffer_still (set_video_kbps s v) server img Hi).
  - rewrite (buffer_still s server img Hi). eexists. reflexivity.
Qed.

Lemma still_image_ignores_bitrate_witness :
  videostream Sample.world (set_video_kbps Sample.still (Some 3000))
  = videostream Sample.world Sample.still /\
  buffer (set_video_kbps Sample.still (Some 3000)) "-"
  = buffer Sample.still "-" /\
  exists out, buffer Sample.still "-" = Ok out.
Proof.
  apply (still_image_ignores_bitrate Sample.world Sample.still "cover.png").
  reflexivity.
Defined.

(** ** Network buffer *)

Lemma buffer_raises (s : Stream) (server : string) (e : exn) :
  buffer s server = Raise e -> video_kbps s = None.
Proof.
  unfold buffer. destruct (image (init s)); simpl.
  - destruct (server =? "-")%string; discriminate.
  - destruct (video_kbps s); [|reflexivity]. simpl.
    destruct (server =? "-")%string; discriminate.
Qed.

(** [buffer] fails in one way only: on a motion-video plan whose bitrate is
    still unset, at [2*self.video_kbps]. Every fragment it returns opens
    with [-threads 0] and closes with the container, [null] for the server
    [-] and [flv] for any other. *)
Theorem buffer_outcome (s : Stream) (server : string) :
  (forall e, buffer s server = Raise e <->
             e = TypeError /\ image (init s) = None /\ video_kbps s = None) /\
  (forall out, buffer s server = Ok out ->
     exists mid,
       out = ["-threads"; "0"] ++ mid ++
             ["-f"; if (server =? "-")%string then "null" else "flv"]).
Proof.
  destruct (image (init s)) as [img|] eqn:Hi.
  - rewrite (buffer_still s server img Hi). split.
    + intros e. split; [discriminate|]. intros (_ & H & _). discriminate H.
    + intros out H. exists ["-shortest"].
      destruct (server =? "-")%string; injection H as <-; reflexivity.
  - destruct (video_kbps s) as [v|] eqn:Hv.
    + rewrite (buffer_motion s server v Hi Hv). split.
      * intros e. split; [discriminate|]. intros (_ & _ & H). discriminate H.
      * intros out H.
        exists ["-maxrate"; (str_int v ++ "k")%string;
                "-bufsize"; (str_int (2 * v) ++ "k")%string].
        destruct (server =? "-")%string; injection H as <-; reflexivity.
    + unfold buffer. rewrite Hi, Hv. simpl. split.
      * intros e. split.
        -- intros H. inversion H. auto.
        -- intros (-> & _). reflexivity.
      * intros out H. discriminate H.
Qed.

Lemma buffer_outcome_witness :
  buffer Sample.camera "-" = Raise TypeError /\
  exists mid,
    ["-threads"; "0"; "-maxrate"; "2500k"; "-bufsize"; "5000k"; "-f"; "null"]
    = ["-threads"; "0"] ++ mid ++ ["-f"; "null"].
Proof.
  split.
  - apply (proj1 (buffer_outcome Sample.camera "-")).
    repeat split.
  - apply (proj2 (buffer_outcome Sample.camera_fixed "-")). reflexivity.
Defined.

(** After a successful [video_bitrate], [buffer] always succeeds. *)
Theorem buffer_after_video_bitrate (s s' : Stream) (server : string) :
  video_bitrate s = Ok s' ->
  exists out, buffer s' server = Ok out.
Proof.
  intros H.
  assert (Hk : video_kbps s' <> None).
  { destruct (video_bitrate_result s s' H) as [[Ht ->]|[_ (v & -> & _)]].
    - destruct (video_kbps s); [discriminate | discriminate Ht].
    - discriminate. }
  destruct (buffer s' server) as [out|e] eqn:Hb; [exists out; reflexivity|].
  apply buffer_raises in Hb. contradiction.
Qed.

Lemma buffer_after_video_bitrate_witness :
  exists out,
    buffer (set_video_kbps Sample.camera (Some 1800)) "rtmp://host/live"
    = Ok out.
Proof.
  apply (buffer_after_video_bitrate Sample.camera). reflexivity.
Defined.

(** The encoder's target bitrate and the rate cap are the same token: on
    a motion-video plan with a resolved bitrate, [-b:v] in the output flags
    and [-maxrate] in the buffer flags carry the same string. *)
Theorem bitrate_tokens_agree (w : World) (s : Stream) (server : string)
  (v : Z) (vid1 vid2 : list string) :
  image (init s) = None ->
  video_kbps s = Some v ->
  videostream w s = Ok (vid1, vid2) ->
  exists t pre post pre' post',
    t = (str_int v ++ "k")%string /\
    vid2 = pre ++ ["-b:v"; t] ++ post /\
    buffer s server = Ok (pre' ++ ["-maxrate"; t] ++ post').
Proof.
  intros Hi Hv Hvs.
  exists (str_int v ++ "k")%string.
  unfold videostream in Hvs. bind_inv Hvs.
  rewrite Hi, Hv in Hvs. simpl in Hvs. bind_inv Hvs. inversion Hvs.
  rewrite (buffer_motion s server v Hi Hv).
  exists ["-c:v"; "libx264"; "-pix_fmt"; "yuv420p"; "-preset"; preset s].
  eexists. exists ["-threads"; "0"]. eexists.
  split; [reflexivity|]. split; reflexivity.
Qed.

Lemma bitrate_tokens_agree_witness :
  exists t pre post pre' post',
    t = (str_int 2500 ++ "k")%string /\
    ["-c:v"; "libx264"; "-pix_fmt"; "yuv420p"; "-preset"; "veryfast";
     "-b:v"; "2500k"; "-g"; "60"] = pre ++ ["-b:v"; t] ++ post /\
    buffer Sample.camera_fixed "-" = Ok (pre' ++ ["-maxrate"; t] ++ post').
Proof.
  apply (bitrate_tokens_agree Sample.world Sample.camera_fixed "-" 2500
           ["-f"; "v4l2"; "-r"; "30"; "-i"; "/dev/video0"]);
    reflexivity.
Defined.

(** ** More on [unify_streams] *)

Lemma min_loop_In (key : nat -> result (option Z)) :
  forall (items : list nat) (m : nat) (mv : option Z) (i : nat),
    min_loop key m mv items = Ok i -> i = m \/ In i items.
Proof.
  induction items as [|item rest IH]; intros m mv i H; simpl in H.
  - inversion H. auto.
  - bind_inv H. bind_inv H.
    destruct x0; apply IH in H; destruct H as [->|H]; simpl; auto.
Qed.

(** The index returned, if any, points into the collection, and [None]
    is returned for the empty collection only. *)
Theorem unify_streams_in_range {A : Type} (self : A) (streams : list Stream) :
  (forall i, unify_streams self streams = Ok (Some i) ->
             (i < List.length streams)%nat) /\
  (unify_streams self streams = Ok None <-> streams = []).
Proof.
  split.
  - intros i H. destruct streams as [|s0 rest]; [discriminate H|].
    unfold unify_streams in H. bind_inv H. inversion H; subst x.
    rewrite length_map in E. simpl in E.
    apply min_loop_In in E.
    destruct E as [->|Hin]; [simpl; lia|].
    apply in_seq in Hin. simpl. lia.
  - split.
    + intros H. destruct streams as [|s0 rest]; [reflexivity|].
      unfold unify_streams in H. bind_inv H. discriminate H.
    + intros ->. reflexivity.
Qed.

Lemma unify_streams_in_range_witness :
  Nat.lt 1 (List.length
              [set_video_kbps Sample.screen (Some 4500);
               set_video_kbps Sample.file (Some 3000)]).
Proof.
  apply (proj1 (unify_streams_in_range tt
                  [set_video_kbps Sample.screen (Some 4500);
                   set_video_kbps Sample.file (Some 3000)]) 1%nat).
  reflexivity.
Defined.

(** Once [None] is among the keys still to compare, or is the running
    minimum with a key left, the comparison raises. *)
Lemma min_loop_None (bw : list (option Z)) :
  forall (n start m : nat) (mv : option Z),
    (start + n = List.length bw)%nat ->
    (mv = None /\ (0 < n)%nat) \/
    (exists j, (start <= j < start + n)%nat /\ nth_error bw j = Some None) ->
    min_loop (getitem bw) m mv (seq start n) = Raise TypeError.
Proof.
  induction n as [|n IH]; intros start m mv Hlen Hnone.
  - destruct Hnone as [[_ H]|(j & Hj & _)]; lia.
  - simpl. unfold getitem at 1.
    destruct (nth_error bw start) as [val|] eqn:Hval.
    2:{ apply nth_error_None in Hval. lia. }
    simpl. destruct mv as [v|].
    + destruct val as [u|]; [|reflexivity]. simpl.
      destruct Hnone as [[H _]|(j & Hj & Hnj)]; [discriminate H|].
      assert (j <> start) by (intros ->; congruence).
      assert (Hrest : exists j, (S start <= j < S start + n)%nat /\
                                nth_error bw j = Some None).
      { exists j. split; [lia | exact Hnj]. }
      destruct (u <? v)%Z; apply IH; try lia; right; exact Hrest.
    + destruct val; reflexivity.
Qed.

(** A single plan is returned as index 0 whether or not its bitrate is
    resolved; with two or more plans, one unresolved bitrate makes
    [unify_streams] raise [TypeError]. *)
Theorem unify_streams_unresolved {A : Type} (self : A) :
  (forall s, unify_streams self [s] = Ok (Some 0%nat)) /\
  (forall streams s,
     (2 <= List.length streams)%nat ->
     In s streams -> video_kbps s = None ->
     unify_streams self streams = Raise TypeError).
Proof.
  split; [reflexivity|].
  intros streams s Hlen Hin Hnone.
  rewrite unify_streams_bitrates.
  apply (in_map video_kbps) in Hin. rewrite Hnone in Hin.
  apply In_nth_error in Hin. destruct Hin as [j Hj].
  assert (Hl : List.length (map video_kbps streams) = List.length streams)
    by apply length_map.
  destruct (map video_kbps streams) as [|v0 bw] eqn:E;
    [simpl in Hl; lia|].
  cbv zeta. simpl List.length. simpl seq. unfold py_min.
  change (getitem (v0 :: bw) 0) with (@Ok (option Z) v0). simpl bind.
  rewrite (min_loop_None (v0 :: bw) (List.length bw) 1 0 v0);
    [reflexivity | reflexivity |].
  destruct j as [|j].
  - left. simpl in Hj. inversion Hj. split; [reflexivity|].
    simpl in Hl. lia.
  - right. exists (S j). split; [|exact Hj].
    assert (S j < List.length (v0 :: bw))%nat
      by (apply nth_error_Some; congruence).
    simpl in *. lia.
Qed.

Lemma unify_streams_unresolved_witness :
  unify_streams tt [Sample.camera] = Ok (Some 0%nat) /\
  unify_streams tt [Sample.camera_fixed; Sample.camera] = Raise TypeError.
Proof.
  destruct (unify_streams_unresolved tt) as [H1 H2].
  split; [apply H1|].
  apply (H2 _ Sample.camera); [simpl; lia | simpl; tauto | reflexivity].
Defined.

(** ** Audio codec *)

(** [audiocomp] applies the guard of [audiostream] but not its source
    test: with all three fields set it is the six codec tokens for every
    source, a file included, and it is empty otherwise. So input flags
    never come without codec flags. *)
Theorem audiocomp_tokens (s : Stream) :
  (is_set (audio_bps s) -> is_set (acap s) -> is_set (audiochan s) ->
   exists b, audio_bps s = Some b /\
     audiocomp s = ["-c:a"; "aac"; "-b:a"; b; "-ar"; audiofs s]) /\
  (~ is_set (audio_bps s) \/ ~ is_set (acap s) \/ ~ is_set (audiochan s) ->
   audiocomp s = []) /\
  (audiostream s <> [] -> audiocomp s <> []).
Proof.
  unfold audiocomp, audiostream, no_audio. split; [|split].
  - intros Hb Hc Hch. pose proof Hb as (b & Eb & _).
    apply truthy_str_set in Hb, Hc, Hch. rewrite Hb, Hc, Hch. simpl.
    exists b. rewrite Eb. auto.
  - intros [H|[H|H]]; apply truthy_str_unset in H; rewrite H;
      destruct (truthy_str (audio_bps s)); try reflexivity;
      destruct (truthy_str (acap s)); reflexivity.
  - destruct (negb _ || negb _ || negb _); [auto | discriminate].
Qed.

Lemma audiocomp_tokens_witness :
  audiostream Sample.file = [] /\
  audiocomp Sample.file = ["-c:a"; "aac"; "-b:a"; "128k"; "-ar"; "44100"] /\
  audiocomp (Variant.screen_on "win32") = [].
Proof.
  split; [reflexivity|]. split.
  - destruct (proj1 (audiocomp_tokens Sample.file)) as (b & Eb & Ha).
    + exists "128k". split; [reflexivity | discriminate].
    + exists "pulse". split; [reflexivity | discriminate].
    + exists "default". split; [reflexivity | discriminate].
    + inversion Eb. subst b. exact Ha.
  - apply (proj1 (proj2 (audiocomp_tokens (Variant.screen_on "win32")))).
    right. left. intros (v & Ev & Hne). vm_compute in Ev. inversion Ev.
    subst v. apply Hne. reflexivity.
Defined.

(** ** More on built plans *)

(** [fallback=None] covers a missing [video_kbps] only: a built plan has
    no override exactly when the option is missing, and otherwise holds the
    number the option reads as; a malformed value yields no plan. *)
Theorem osparam_override (w : World) (a : StreamInit) (s : Stream) :
  osparam w a = Ok s ->
  match cfg_get (read_config w (ini a)) (site a) "video_kbps" with
  | Raise _ => video_kbps s = None
  | Ok t => exists z, int_of_str t = Ok z /\ video_kbps s = Some z
  end.
Proof.
  intros Hos.
  destruct (osparam_Ok_inv w a s Hos) as (_ & _ & _ & _ & _ & Hk & _).
  unfold cfg_getint_fallback in Hk.
  destruct (cfg_get (read_config w (ini a)) (site a) "video_kbps") as [t|e].
  - bind_inv Hk. inversion Hk. exists x. auto.
  - inversion Hk. reflexivity.
Qed.

Lemma osparam_override_witness :
  video_kbps Sample.camera = None /\
  exists z, int_of_str "2500" = Ok z /\ video_kbps Sample.camera_fixed = Some z.
Proof.
  destruct sample_plans_built as (Hc & _ & _ & _ & _ & _ & _ & Hf & _).
  split.
  - apply (osparam_override _ _ _ Hc).
  - apply (osparam_override _ _ _ Hf).
Defined.

Lemma getitem_map {A B : Type} (f : A -> B) (l : list A) (i : nat) :
  getitem (map f l) i = (v <- getitem l i ;; Ok (f v)).
Proof.
  unfold getitem. rewrite nth_error_map.
  destruct (nth_error l i); reflexivity.
Qed.

(** For a camera or screen plan the height is the part of the configured
    resolution after the first [x]: without an [x], and without override,
    [video_bitrate] raises [IndexError]; with one, only that part is
    read. *)
Theorem video_bitrate_config_height (w : World) (a : StreamInit) (s : Stream) :
  osparam w a = Ok s ->
  vidsource a = "camera" \/ vidsource a = "screen" ->
  exists size,
    cfg_get (read_config w (ini a)) (site a)
      (if (vidsource a =? "camera")%string
       then "webcam_res" else "screencap_res") = Ok size /\
    (~ In "x"%char (list_ascii_of_string size) ->
     truthy_int (video_kbps s) = false ->
     video_bitrate s = Raise IndexError) /\
    (forall h, getitem (str_split "x" size) 1 = Ok h ->
       bitrate_height s = (x <- int_of_str h ;; Ok (Some x))).
Proof.
  intros Hos Hk.
  destruct (osparam_Ok_inv w a s Hos) as (_ & _ & _ & _ & Hsrc & _).
  apply osparam_source_inv in Hsrc.
  assert (H : exists size,
             cfg_get (read_config w (ini a)) (site a)
               (if (vidsource a =? "camera")%string
                then "webcam_res" else "screencap_res") = Ok size /\
             res s = Some (map PyStr (str_split "x" size))).
  { destruct Hsrc as [(Hc & (t & Ht & Hr) & _)
                     |[(Hs & (t & Ht & Hr) & _)|(Hf & _)]].
    - rewrite Hc. exists t. auto.
    - rewrite Hs. exists t. auto.
    - destruct Hk as [Hk|Hk]; rewrite Hk in Hf; discriminate Hf. }
  destruct H as (size & Hsize & Hres).
  exists size. split; [exact Hsize|]. split.
  - intros Hno Ht. unfold video_bitrate, bitrate_height.
    rewrite Ht, Hres, getitem_map.
    assert (H1 : getitem (str_split "x" size) 1 = Raise IndexError).
    { unfold getitem. destruct (nth_error (str_split "x" size) 1) eqn:E;
        [|reflexivity].
      exfalso. apply Hno. apply str_split_second. unfold getitem.
      rewrite E. eexists. reflexivity. }
    rewrite H1. reflexivity.
  - intros h Hh. unfold bitrate_height.
    rewrite Hres, getitem_map, Hh. reflexivity.
Qed.

Lemma video_bitrate_config_height_witness :
  exists size,
    cfg_get Variant.config "square" "webcam_res" = Ok size /\
    video_bitrate
      (Sample.built (Variant.plan (Variant.on "linux") "square" "camera" None))
    = Raise IndexError.
Proof.
  assert (Hos : Variant.plan (Variant.on "linux") "square" "camera" None
                = Ok (Sample.built
                        (Variant.plan (Variant.on "linux") "square" "camera"
                           None)))
    by (vm_compute; reflexivity).
  destruct (video_bitrate_config_height (Variant.on "linux") _ _ Hos
              (or_introl eq_refl)) as (size & Hsize & Hno & _).
  exists size. split; [exact Hsize|].
  apply Hno; [|reflexivity].
  vm_compute in Hsize. inversion Hsize. subst size.
  simpl. intros [H|[H|[H|[]]]]; discriminate H.
Defined.

(** A camera plan built by [osparam] always has its input flags, which are
    format, configured frame rate and device: the configured [webcam_res]
    is not among them. *)
Theorem videostream_camera_built (w : World) (a : StreamInit) (s : Stream) :
  osparam w a = Ok s ->
  vidsource a = "camera" ->
  exists n vid2,
    cfg_getint (read_config w (ini a)) (site a) "webcam_fps" = Ok n /\
    videostream w s
    = Ok (["-f"; hcam s; "-r"; str_int n; "-i"; videochan s], vid2).
Proof.
  intros Hos Hk.
  destruct (osparam_Ok_inv w a s Hos) as (Hi & _ & _ & _ & Hsrc & _).
  unfold osparam_source in Hsrc. rewrite Hk in Hsrc. simpl in Hsrc.
  bind_inv Hsrc. bind_inv Hsrc. inversion Hsrc as [[Hr Hf Ho]].
  exists x0. unfold videostream, webcam. rewrite Hi, Hk, <- Hf. simpl.
  destruct (truthy_path (image a)); eexists; split; try exact E0; reflexivity.
Qed.

Lemma videostream_camera_built_witness :
  exists n vid2,
    cfg_getint Sample.config "youtube" "webcam_fps" = Ok n /\
    videostream Sample.world Sample.camera
    = Ok (["-f"; "v4l2"; "-r"; str_int n; "-i"; "/dev/video0"], vid2).
Proof.
  destruct sample_plans_built as (Hc & _).
  apply (videostream_camera_built Sample.world _ _ Hc). reflexivity.
Defined.

(** ** The stream key *)

Lemma lstrip_split (l : list ascii) : exists pre, l = pre ++ lstrip l.
Proof.
  induction l as [|c l [pre IH]]; simpl.
  - exists []. reflexivity.
  - destruct (is_space c).
    + exists (c :: pre). simpl. rewrite <- IH. reflexivity.
    + exists []. reflexivity.
Qed.

Lemma lstrip_head (l l' : list ascii) (c : ascii) :
  lstrip l = c :: l' -> is_space c = false.
Proof.
  induction l as [|d l IH]; simpl; [discriminate|].
  destruct (is_space d) eqn:Hd; [exact IH|].
  intros H. inversion H; subst. exact Hd.
Qed.

(** A stripped text neither starts nor ends with whitespace. *)
Lemma strip_chars_ends (l : list ascii) :
  (forall c l', strip_chars l = c :: l' -> is_space c = false) /\
  (forall c l', strip_chars l = l' ++ [c] -> is_space c = false).
Proof.
  unfold strip_chars. split; intros c l' H.
  - destruct (lstrip_split (rev (lstrip l))) as [pre Hpre].
    apply (f_equal (@rev ascii)) in Hpre.
    rewrite rev_involutive, rev_app_distr, H in Hpre.
    simpl in Hpre. apply (lstrip_head l _ c Hpre).
  - apply (f_equal (@rev ascii)) in H.
    rewrite rev_involutive, rev_app_distr in H. simpl in H.
    apply (lstrip_head _ _ c H).
Qed.

(** The key of a built plan: absent when the option is missing or empty;
    otherwise the configured path expands, and the key is the configured
    value itself when the path names no file, and else the text of the
    file it names, stripped, so that the key neither starts nor ends with
    whitespace. *)
Theorem osparam_key_resolved (w : World) (a : StreamInit) (s : Stream) :
  osparam w a = Ok s ->
  match cfg_get_fallback (read_config w (ini a)) (site a) "key" with
  | None => key s = None
  | Some k =>
      if (k =? "")%string then key s = None
      else
        exists p, expanduser w k = Ok p /\
          if is_file w p then
            exists t, read_text w p = Ok t /\
              key s = Some (str_strip t) /\
              (forall c l, list_ascii_of_string (str_strip t) = c :: l ->
                           is_space c = false) /\
              (forall c l, list_ascii_of_string (str_strip t) = l ++ [c] ->
                           is_space c = false)
          else key s = Some k
  end.
Proof.
  intros Hos.
  destruct (osparam_Ok_inv w a s Hos) as (_ & _ & _ & _ & _ & _ & _ & _ & _ & Hk).
  unfold osparam_key in Hk.
  destruct (cfg_get_fallback (read_config w (ini a)) (site a) "key") as [k|];
    simpl in Hk.
  - destruct (k =? "")%string; simpl in Hk; [inversion Hk; reflexivity|].
    bind_inv Hk. exists x. split; [exact E|].
    destruct (is_file w x).
    + bind_inv Hk. inversion Hk. exists x0. split; [exact E0|].
      split; [reflexivity|].
      unfold str_strip. rewrite list_ascii_of_string_of_list_ascii.
      apply strip_chars_ends.
    + inversion Hk. reflexivity.
  - inversion Hk. reflexivity.
Qed.

Lemma osparam_key_resolved_witness :
  key (Sample.built (Variant.plan Variant.keyed "keyfile" "camera" None))
  = Some "live_abc123" /\
  key Sample.camera = Some "abcd-1234" /\
  key Sample.camera_fixed = None.
Proof.
  assert (Hos : osparam Variant.keyed
                  {| ini := "pylivestream.ini"; site := "keyfile";
                     vidsource := "camera"; image := None; loop := false;
                     infn := None |}
                = Ok (Sample.built
                        (Variant.plan Variant.keyed "keyfile" "camera" None)))
    by (vm_compute; reflexivity).
  destruct sample_plans_built as (Hc & _ & _ & _ & _ & _ & _ & Hf & _).
  split; [|split].
  - destruct (osparam_key_resolved Variant.keyed _ _ Hos)
      as (p & Hp & Hfile).
    vm_compute in Hp. inversion Hp. subst p.
    destruct Hfile as (t & Ht & Hkey & _).
    rewrite Hkey. vm_compute in Ht. inversion Ht. reflexivity.
  - destruct (osparam_key_resolved Sample.world
                {| ini := "pylivestream.ini"; site := "youtube";
                   vidsource := "camera"; image := None; loop := false;
                   infn := None |} Sample.camera Hc) as (p & Hp & Hfile).
    vm_compute in Hp. inversion Hp. subst p. exact Hfile.
  - apply (osparam_key_resolved Sample.world
             {| ini := "pylivestream.ini"; site := "fixed";
                vidsource := "camera"; image := None; loop := false;
                infn := None |} Sample.camera_fixed Hf).
Defined.

(** ** The lookup on any sorted table *)

(** On every table with strictly increasing keys, the lookup by
    [bisect_left] returns [b] exactly when [b] belongs to the least key at
    or above the height, and raises [IndexError] exactly when every key
    lies below the height. *)
Theorem table_lookup_spec (BR : list (Z * Z)) (x : Z) :
  StronglySorted Z.lt (keys BR) ->
  (forall b,
     table_lookup BR x = Ok b <->
     exists k, In (k, b) BR /\ x <= k /\
               (forall k', In k' (keys BR) -> x <= k' -> k <= k')) /\
  (table_lookup BR x = Raise IndexError <->
   forall k, In k (keys BR) -> k < x).
Proof.
  intros Hs. rewrite (table_lookup_first_ge BR x Hs). split.
  - intros b. split.
    + intros H.
      destruct (first_ge BR x) as [b0|] eqn:Hb; inversion H; subst b0.
      pose proof Hb as Hfind. unfold first_ge in Hfind.
      destruct (find (fun kv => (x <=? fst kv)%Z) BR) as [[k0 v0]|] eqn:Hf;
        [|discriminate Hfind].
      apply find_some in Hf. destruct Hf as [Hin Hle]. simpl in Hle.
      apply Z.leb_le in Hle.
      destruct (first_ge_next BR Hs x k0 (in_map fst _ _ Hin) Hle)
        as (k & b' & Hkb & Hxk & Hleast & Hfg).
      assert (b' = b) by congruence. subst b'.
      exists k. auto.
    + intros (k & Hkb & Hxk & Hleast).
      destruct (first_ge_next BR Hs x k (in_map fst _ _ Hkb) Hxk)
        as (k1 & b1 & Hkb1 & Hxk1 & Hleast1 & Hfg).
      assert (k1 = k).
      { pose proof (Hleast k1 (in_map fst _ _ Hkb1) Hxk1).
        pose proof (Hleast1 k (in_map fst _ _ Hkb) Hxk). lia. }
      subst k1.
      pose proof (first_ge_key BR Hs k b Hkb) as E.
      pose proof (first_ge_key BR Hs k b1 Hkb1) as E1.
      rewrite Hfg. congruence.
  - split.
    + intros H k Hk.
      destruct (first_ge BR x) as [b|] eqn:Hb; [discriminate H|].
      unfold first_ge in Hb.
      destruct (find (fun kv => (x <=? fst kv)%Z) BR) as [kv|] eqn:Hf;
        [discriminate Hb|].
      unfold keys in Hk. apply in_map_iff in Hk.
      destruct Hk as (kv & <- & Hin).
      apply (find_none _ _ Hf) in Hin. apply Z.leb_gt in Hin. exact Hin.
    + intros Hall. rewrite (first_ge_above BR x Hall). reflexivity.
Qed.

Lemma table_lookup_spec_witness :
  table_lookup BR60 1000 = Ok 4500 /\ table_lookup BR60 2161 = Raise IndexError.
Proof.
  destruct (table_lookup_spec BR60 1000 BR60_sorted) as [Hok _].
  destruct (table_lookup_spec BR60 2161 BR60_sorted) as [_ Hraise].
  split.
  - apply Hok. exists 1080. split; [vm_compute; tauto|]. split; [lia|].
    intros k' Hk' Hle. simpl in Hk'.
    repeat (destruct Hk' as [<-|Hk']; [lia|]). contradiction.
  - apply Hraise. intros k Hk. simpl in Hk.
    repeat (destruct Hk as [<-|Hk]; [lia|]). contradiction.
Defined.
